(** * Age-threshold proof protocol of the zk-SNARK backend

    A shallow embedding of [backend/zksnark_age_verification.py] (the
    circuit, the prover, the verifier and the challenge store) and of the
    two protocol routes of [backend/zksnark_main.py] ([request_challenge]
    and [verify_zkproof]), followed by the properties the specification
    states about them. *)

From Stdlib Require Import ZArith Lia.
From stdpp Require Import gmap strings list fin_maps.

Local Open Scope Z_scope.

(** ** Python values

    The verifier decides with [isinstance] and [len] on whatever it is
    handed, so the points of a proof are kept as dynamically typed values.
    The universe holds the values that reach the protocol: JSON scalars and
    arrays, tuples, and the field elements [FQ] and [FQ2] of [py_ecc], which
    are plain objects and not integers. *)

#[warnings="-register-all"]
Inductive pyval : Type :=
| PyNone
| PyBool (b : bool)
| PyInt (z : Z)
| PyStr (s : string)
| PyFQ (n : Z)
| PyFQ2 (c0 c1 : Z)
| PyTuple (items : list pyval)
| PyList (items : list pyval).

(** [isinstance(v, int)]: [bool] is a subclass of [int]. *)
Definition isinstance_int (v : pyval) : bool :=
  match v with
  | PyInt _ | PyBool _ => true
  | _ => false
  end.

(** The items of a value for which [isinstance(v, (tuple, list))] holds. *)
Definition seq_items (v : pyval) : option (list pyval) :=
  match v with
  | PyTuple l | PyList l => Some l
  | _ => None
  end.

(** ** Exceptions

    The source wraps its checks in [try]/[except]; the exceptions that can
    arise in the embedded code are the ones below. *)

Inductive exn : Type := TypeError | ValueError | KeyError | IndexError.

Inductive py (A : Type) : Type :=
| Ret (x : A)
| Raise (e : exn).
Arguments Ret {A} x.
Arguments Raise {A} e.

#[global] Instance py_ret : MRet py := @Ret.

#[global] Instance py_bind : MBind py := fun A B k m =>
  match m with
  | Ret x => k x
  | Raise e => Raise e
  end.

(** [try: body  except: return handler]. *)
Definition try_except {A : Type} (body : py A) (handler : A) : A :=
  match body with
  | Ret x => x
  | Raise _ => handler
  end.

(** [u + v] on sequences: tuples concatenate with tuples and lists with
    lists; every other pairing that the validators can reach raises
    [TypeError]. *)
Definition py_add_seq (u v : pyval) : py (list pyval) :=
  match u, v with
  | PyTuple l1, PyTuple l2 => Ret (l1 ++ l2)
  | PyList l1, PyList l2 => Ret (l1 ++ l2)
  | _, _ => Raise TypeError
  end.

(** [d[k]] on a dictionary. *)
Definition py_getitem {V : Type} (d : gmap string V) (k : string) : py V :=
  match d !! k with
  | Some v => Ret v
  | None => Raise KeyError
  end.

(** ** The curve arithmetic of [py_ecc.bn128]

    The repository imports [G1], [G2], [multiply] and [curve_order] from
    [py_ecc.bn128].  They are written out here so that the prover can be run
    on concrete inputs; the properties below use only the shape of what
    [multiply] returns: [None] for the point at infinity, and otherwise a
    pair of field elements. *)

Module bn128.

Definition field_modulus : Z :=
  21888242871839275222246405745257275088696311157297823662689037894645226208583.

Definition curve_order : Z :=
  21888242871839275222246405745257275088548364400416034343698204186575808495617.

(** The loop of [prime_field_inv]: the extended Euclidean algorithm. *)
Fixpoint inv_loop (fuel : nat) (lm hm low high : Z) : Z :=
  match fuel with
  | O => lm
  | S fuel' =>
      if 1 <? low then
        let r := high `div` low in
        let nm := hm - lm * r in
        let new := high - low * r in
        inv_loop fuel' nm lm new low
      else lm
  end.

Definition prime_field_inv (x n : Z) : Z :=
  let x := x `mod` n in
  if x =? 0 then 0
  else inv_loop (2 * Z.to_nat (Z.log2 n) + 2) 1 0 (x `mod` n) n `mod` n.

(** The operations of a field element class that the curve code uses. *)
Class FieldOps (F : Type) : Type := {
  f_add : F -> F -> F;
  f_sub : F -> F -> F;
  f_mul : F -> F -> F;
  f_div : F -> F -> F;
  f_neg : F -> F;
  f_int_mul : Z -> F -> F;
  f_eqb : F -> F -> bool
}.

(** [FQ]: integers modulo [field_modulus]. *)
#[global] Instance FQ_ops : FieldOps Z := {|
  f_add x y := (x + y) `mod` field_modulus;
  f_sub x y := (x - y) `mod` field_modulus;
  f_mul x y := (x * y) `mod` field_modulus;
  f_div x y := (x * prime_field_inv y field_modulus) `mod` field_modulus;
  f_neg x := (- x) `mod` field_modulus;
  f_int_mul k x := (k * x) `mod` field_modulus;
  f_eqb x y := x =? y
|}.

(** [FQ2]: [FQ\[i\] / (i^2 + 1)], a pair of coefficients. *)
Definition fq2_mul (x y : Z * Z) : Z * Z :=
  ((x.1 * y.1 - x.2 * y.2) `mod` field_modulus,
   (x.1 * y.2 + x.2 * y.1) `mod` field_modulus).

Definition fq2_inv (x : Z * Z) : Z * Z :=
  let d := prime_field_inv ((x.1 * x.1 + x.2 * x.2) `mod` field_modulus)
                           field_modulus in
  ((x.1 * d) `mod` field_modulus, (- x.2 * d) `mod` field_modulus).

#[global] Instance FQ2_ops : FieldOps (Z * Z) := {|
  f_add x y := ((x.1 + y.1) `mod` field_modulus, (x.2 + y.2) `mod` field_modulus);
  f_sub x y := ((x.1 - y.1) `mod` field_modulus, (x.2 - y.2) `mod` field_modulus);
  f_mul := fq2_mul;
  f_div x y := fq2_mul x (fq2_inv y);
  f_neg x := ((- x.1) `mod` field_modulus, (- x.2) `mod` field_modulus);
  f_int_mul k x := ((k * x.1) `mod` field_modulus, (k * x.2) `mod` field_modulus);
  f_eqb x y := (x.1 =? y.1) && (x.2 =? y.2)
|}.

Section Curve.
Context {F : Type} `{FieldOps F}.

(** A point is [None] (infinity) or a pair of coordinates. *)
Definition double (pt : option (F * F)) : option (F * F) :=
  match pt with
  | None => None
  | Some (x, y) =>
      let m := f_div (f_int_mul 3 (f_mul x x)) (f_int_mul 2 y) in
      let newx := f_sub (f_mul m m) (f_int_mul 2 x) in
      let newy := f_sub (f_add (f_mul (f_neg m) newx) (f_mul m x)) y in
      Some (newx, newy)
  end.

Definition add (p1 p2 : option (F * F)) : option (F * F) :=
  match p1, p2 with
  | _, None => p1
  | None, _ => p2
  | Some (x1, y1), Some (x2, y2) =>
      if f_eqb x2 x1 && f_eqb y2 y1 then double p1
      else if f_eqb x2 x1 then None
      else
        let m := f_div (f_sub y2 y1) (f_sub x2 x1) in
        let newx := f_sub (f_sub (f_mul m m) x1) x2 in
        let newy := f_sub (f_add (f_mul (f_neg m) newx) (f_mul m x1)) y1 in
        Some (newx, newy)
  end.

(** [multiply(pt, n)] for [n >= 1], by the binary digits of [n]. *)
Fixpoint multiply_pos (pt : option (F * F)) (n : positive) : option (F * F) :=
  match n with
  | xH => pt
  | xO n' => multiply_pos (double pt) n'
  | xI n' => add (multiply_pos (double pt) n') pt
  end.

(** [multiply(pt, n)]; the source only calls it with [n >= 1]. *)
Definition multiply (pt : option (F * F)) (n : Z) : option (F * F) :=
  match n with
  | Zpos n' => multiply_pos pt n'
  | _ => None
  end.

(** [is_on_curve(pt, b)]: the point satisfies [y^2 - x^3 = b]. *)
Definition is_on_curve (pt : option (F * F)) (coeff_b : F) : bool :=
  match pt with
  | None => true
  | Some (x, y) => f_eqb (f_sub (f_mul y y) (f_mul (f_mul x x) x)) coeff_b
  end.
End Curve.

(** The coefficient [b] of the curve on which G1 lives: [y^2 = x^3 + 3]. *)
Definition b_G1 : Z := 3.

Definition G1 : option (Z * Z) := Some (1, 2).

Definition G2 : option ((Z * Z) * (Z * Z)) :=
  Some ((10857046999023057135944570762232829481370756359578518086990519993285655852781,
         11559732032986387107991004021392285783925812861821192530917403151452391805634),
        (8495653923123431417604973247489272438418190587263600148770280649306958101930,
         4082367875863433681332203403145435568316851327593401208105741076214120093531)).

(** A G1 point as the Python value [py_ecc] returns: a tuple of two [FQ]. *)
Definition py_of_G1 (pt : option (Z * Z)) : pyval :=
  match pt with
  | None => PyNone
  | Some (x, y) => PyTuple [PyFQ x; PyFQ y]
  end.

(** A G2 point as the Python value [py_ecc] returns: a tuple of two [FQ2]. *)
Definition py_of_G2 (pt : option ((Z * Z) * (Z * Z))) : pyval :=
  match pt with
  | None => PyNone
  | Some (x, y) => PyTuple [PyFQ2 x.1 x.2; PyFQ2 y.1 y.2]
  end.

End bn128.

Import bn128.

(** ** Random sources

    [random.randint] and [secrets.token_hex] read from two sources of
    randomness.  Each is a tape of raw draws with a cursor; a run of the
    program is determined by the tapes, which are universally quantified in
    the properties. *)

Record Entropy : Type := mkEntropy {
  random_tape : nat -> Z;
  random_pos : nat;
  secrets_tape : nat -> string;
  secrets_pos : nat
}.

Definition Rand (A : Type) : Type := Entropy -> A * Entropy.

#[global] Instance rand_ret : MRet Rand := fun A x e => (x, e).

#[global] Instance rand_bind : MBind Rand := fun A B k m e =>
  let '(x, e') := m e in k x e'.

(** [random.randint(lo, hi)]: the next raw draw, brought into [lo..hi]. *)
Definition randint (lo hi : Z) : Rand Z := fun e =>
  (lo + random_tape e (random_pos e) `mod` (hi - lo + 1),
   mkEntropy (random_tape e) (S (random_pos e)) (secrets_tape e) (secrets_pos e)).

(** [secrets.token_hex(nbytes)]: the next token of the secrets tape. *)
Definition token_hex (nbytes : Z) : Rand string := fun e =>
  (secrets_tape e (secrets_pos e),
   mkEntropy (random_tape e) (random_pos e) (secrets_tape e) (S (secrets_pos e))).

(** ** The circuit: [ZKSNARKAgeCircuit] *)

(** The dataclass [Proof]: three points, as whatever values they are given. *)

Record Proof : Type := mkProof { a : pyval; b : pyval; c : pyval }.


Record TrustedSetup : Type := mkTrustedSetup {
  alpha : Z;
  beta : Z;
  gamma : Z;
  delta : Z;
  gamma_abc : list pyval;
  ic : list pyval
}.

Record ZKSNARKAgeCircuit : Type := mkCircuit {
  setup : TrustedSetup;
  field_size : Z
}.

(** The body of the loop [for i in range(3)] of the trusted setup, run
    [n] times on the two lists it appends to. *)
Fixpoint setup_loop (n : nat) (gamma_abc ic : list pyval)
  : Rand (list pyval * list pyval) :=
  match n with
  | O => mret (gamma_abc, ic)
  | S n' =>
      k1 ← randint 1 (curve_order - 1);
      let gamma_abc := gamma_abc ++ [py_of_G1 (multiply G1 k1)] in
      k2 ← randint 1 (curve_order - 1);
      let ic := ic ++ [py_of_G1 (multiply G1 k2)] in
      setup_loop n' gamma_abc ic
  end.

(** [ZKSNARKAgeCircuit._generate_trusted_setup] *)
Definition _generate_trusted_setup : Rand TrustedSetup :=
  alpha ← randint 1 (curve_order - 1);
  beta ← randint 1 (curve_order - 1);
  gamma ← randint 1 (curve_order - 1);
  delta ← randint 1 (curve_order - 1);
  lists ← setup_loop 3 [] [];
  mret (mkTrustedSetup alpha beta gamma delta lists.1 lists.2).

(** [ZKSNARKAgeCircuit.__init__] *)
Definition ZKSNARKAgeCircuit_init : Rand ZKSNARKAgeCircuit :=
  setup ← _generate_trusted_setup;
  mret (mkCircuit setup curve_order).

(** [ZKSNARKAgeCircuit._age_constraint_circuit] *)
Definition _age_constraint_circuit (actual_age minimum_age : Z) : bool :=
  minimum_age <=? actual_age.

(** [ZKSNARKAgeCircuit._polynomial_evaluation]: the witness dictionary. *)
Definition _polynomial_evaluation (self : ZKSNARKAgeCircuit)
    (actual_age minimum_age : Z) : gmap string Z :=
  let result := if minimum_age <=? actual_age then 1 else 0 in
  <["actual_age" := actual_age `mod` field_size self]>
  (<["minimum_age" := minimum_age `mod` field_size self]>
  (<["result" := result]>
  (<["intermediate" := (actual_age - minimum_age) `mod` field_size self]> ∅))).

(** [ZKSNARKAgeCircuit.generate_proof] *)
Definition generate_proof (self : ZKSNARKAgeCircuit)
    (actual_age minimum_age : Z) : Rand (option (Proof * list Z)) :=
  if negb (_age_constraint_circuit actual_age minimum_age) then mret None
  else
    let witness := _polynomial_evaluation self actual_age minimum_age in
    r ← randint 1 (curve_order - 1);
    s ← randint 1 (curve_order - 1);
    a_val ← randint 1 (curve_order - 1);
    let proof_a := py_of_G1 (multiply G1 a_val) in
    b_val ← randint 1 (curve_order - 1);
    let proof_b := py_of_G2 (multiply G2 b_val) in
    c_val ← randint 1 (curve_order - 1);
    let proof_c := py_of_G1 (multiply G1 c_val) in
    let proof := mkProof proof_a proof_b proof_c in
    let public_inputs := [minimum_age; 1] in
    mret (Some (proof, public_inputs)).

(** [ZKSNARKAgeCircuit._is_valid_g1_point] *)
Definition _is_valid_g1_point (point : pyval) : bool :=
  match seq_items point with
  | Some [x; y] => isinstance_int x && isinstance_int y
  | _ => false
  end.

(** [ZKSNARKAgeCircuit._is_valid_g2_point] *)
Definition _is_valid_g2_point (point : pyval) : bool :=
  try_except
    (match seq_items point with
     | Some [coord1; coord2] =>
         match seq_items coord1, seq_items coord2 with
         | Some [_; _], Some [_; _] =>
             xs ← py_add_seq coord1 coord2;
             Ret (forallb isinstance_int xs)
         | _, _ => Ret true
         end
     | _ => Ret false
     end)
    false.

(** [ZKSNARKAgeCircuit.verify_proof].  The public inputs are integers (the
    route declares them [List[int]] and the prover builds a list of two
    integers); unpacking them into two names raises [ValueError] unless
    there are exactly two.  Nothing in the body reads [self]. *)
Definition verify_proof (self : ZKSNARKAgeCircuit) (proof : Proof)
    (public_inputs : list Z) : bool :=
  try_except
    (match public_inputs with
     | [minimum_age; result] =>
         if negb (result =? 1) then Ret false
         else
           let g1_a_valid := _is_valid_g1_point (a proof) in
           let g2_b_valid := _is_valid_g2_point (b proof) in
           let g1_c_valid := _is_valid_g1_point (c proof) in
           if negb (forallb id [g1_a_valid; g2_b_valid; g1_c_valid])
           then Ret false
           else
             if (2 <=? Z.of_nat (length public_inputs))
             then
               match public_inputs !! 0%nat, public_inputs !! 1%nat with
               | Some minimum_age_input, Some result_input =>
                   if (result_input =? 1) && (0 <=? minimum_age_input)
                   then Ret true
                   else Ret false
               | _, _ => Raise IndexError
               end
             else Ret false
     | _ => Raise ValueError
     end)
    false.

(** ** The verifier object: [ZKSNARKAgeVerifier] *)

Record ZKSNARKAgeVerifier : Type := mkVerifier {
  circuit : ZKSNARKAgeCircuit;
  active_challenges : gmap string bool
}.

(** The dictionary that travels from the prover to the verifier; its keys
    are ["proof"], ["public_inputs"], ["challenge"] and ["timestamp"], and
    the value under ["proof"] is itself a dictionary of points.  The
    timestamp is a random token when the prover packs the dictionary and
    the text of an instant when the route does. *)
Inductive Timestamp : Type :=
| Token (hex : string)
| Instant (seconds : Z).

Record ProofData : Type := mkProofData {
  pd_proof : gmap string pyval;
  pd_public_inputs : list Z;
  pd_challenge : string;
  pd_timestamp : Timestamp
}.

(** [ZKSNARKAgeVerifier.__init__] *)
Definition ZKSNARKAgeVerifier_init : Rand ZKSNARKAgeVerifier :=
  circuit ← ZKSNARKAgeCircuit_init;
  mret (mkVerifier circuit ∅).

(** [ZKSNARKAgeVerifier.generate_challenge] *)
Definition generate_challenge (self : ZKSNARKAgeVerifier)
  : Rand (string * ZKSNARKAgeVerifier) :=
  challenge ← token_hex 32;
  mret (challenge,
        mkVerifier (circuit self) (<[challenge := true]> (active_challenges self))).

(** [ZKSNARKAgeVerifier.client_generate_proof] *)
Definition client_generate_proof (self : ZKSNARKAgeVerifier)
    (actual_age minimum_age : Z) (challenge : string) : Rand (option ProofData) :=
  proof_result ← generate_proof (circuit self) actual_age minimum_age;
  match proof_result with
  | None => mret None
  | Some (proof, public_inputs) =>
      timestamp ← token_hex 16;
      mret (Some (mkProofData
                    (<["a" := a proof]> (<["b" := b proof]> (<["c" := c proof]> ∅)))
                    public_inputs challenge (Token timestamp)))
  end.

(** [tuple(v) if isinstance(v, list) else v] *)
Definition tuple_if_list (v : pyval) : pyval :=
  match v with
  | PyList l => PyTuple l
  | _ => v
  end.

(** The conversion of the G2 point: a list becomes a tuple whose list
    members have become tuples; anything else is left as it is. *)
Definition tuple_b_point (b_point : pyval) : pyval :=
  match b_point with
  | PyList coords => PyTuple (tuple_if_list <$> coords)
  | _ => b_point
  end.

(** [ZKSNARKAgeVerifier.server_verify_proof] *)
Definition server_verify_proof (self : ZKSNARKAgeVerifier)
    (proof_data : ProofData) (challenge : string) : bool * ZKSNARKAgeVerifier :=
  match active_challenges self !! challenge with
  | None => (false, self)
  | Some _ =>
      let self := mkVerifier (circuit self) (delete challenge (active_challenges self)) in
      (try_except
         (let proof_dict := pd_proof proof_data in
          pa ← py_getitem proof_dict "a";
          let a_point := tuple_if_list pa in
          b_point ← py_getitem proof_dict "b";
          pc ← py_getitem proof_dict "c";
          let c_point := tuple_if_list pc in
          let b_point := tuple_b_point b_point in
          let proof := mkProof a_point b_point c_point in
          let public_inputs := pd_public_inputs proof_data in
          let is_valid := verify_proof (circuit self) proof public_inputs in
          Ret is_valid)
         false,
       self)
  end.

(** ** The service: [zksnark_main]

    The module keeps one verifier object and one dictionary of sessions.
    A session is the dictionary stored under a session id: keys
    ["challenge"], ["minimum_age"], ["created_at"] and ["status"] from the
    start, ["result"] and ["verified_at"] once a verification has run.
    Instants are clock readings in seconds; the source stores their ISO
    text, which no check compares with anything. *)

Record Session : Type := mkSession {
  sess_challenge : string;
  sess_minimum_age : Z;
  sess_created_at : Z;
  sess_status : string;
  sess_result : option bool;
  sess_verified_at : option Z
}.

Record App : Type := mkApp {
  zksnark_verifier : ZKSNARKAgeVerifier;
  active_sessions : gmap string Session
}.

Record ChallengeRequest : Type := mkChallengeRequest {
  creq_minimum_age : Z
}.

Record ChallengeResponse : Type := mkChallengeResponse {
  cresp_challenge : string;
  cresp_minimum_age : Z;
  cresp_session_id : string;
  cresp_message : string
}.

Record ZKProofRequest : Type := mkZKProofRequest {
  req_proof : gmap string pyval;
  req_public_inputs : list Z;
  req_challenge : string;
  req_session_id : string
}.

Record VerificationDetails : Type := mkVerificationDetails {
  zkp_type : string;
  proof_verified : bool;
  server_learned_age : bool;
  minimum_age_required : Z;
  cryptographic_security : string;
  vd_session_id : string
}.

Record ZKProofResponse : Type := mkZKProofResponse {
  is_valid : bool;
  message : string;
  verification_details : VerificationDetails
}.

(** What a route hands back: its response model, or the [HTTPException]
    it raised. *)
Inductive http (A : Type) : Type :=
| Response (body : A)
| HTTPException (status_code : Z) (detail : string).
Arguments Response {A} body.
Arguments HTTPException {A} status_code detail.

(** Route [/request-challenge], run at the instant [now]. *)
Definition request_challenge (request : ChallengeRequest) (now : Z) (app : App)
  : Rand (http ChallengeResponse * App) :=
  cv ← generate_challenge (zksnark_verifier app);
  let challenge := cv.1 in
  session_id ← token_hex 16;
  let sessions :=
    <[session_id := mkSession challenge (creq_minimum_age request) now
                              "pending" None None]> (active_sessions app) in
  mret (Response (mkChallengeResponse challenge (creq_minimum_age request) session_id
                    "Challenge generated. Generate proof on client side."),
        mkApp cv.2 sessions).

(** Route [/verify-zkproof], run at the instant [now]. *)
Definition verify_zkproof (request : ZKProofRequest) (now : Z) (app : App)
  : http ZKProofResponse * App :=
  match active_sessions app !! req_session_id request with
  | None => (HTTPException 400 "Invalid session ID", app)
  | Some session =>
      if bool_decide (sess_challenge session ≠ req_challenge request)
      then (HTTPException 400 "Challenge mismatch", app)
      else
        if (Z.of_nat (length (req_public_inputs request)) <? 1)
           || bool_decide (req_public_inputs request !! 0%nat
                           ≠ Some (sess_minimum_age session))
        then (HTTPException 400 "Minimum age mismatch", app)
        else
          let proof_data :=
            mkProofData (req_proof request) (req_public_inputs request)
                        (req_challenge request) (Instant now) in
          let '(is_valid, verifier) :=
            server_verify_proof (zksnark_verifier app) proof_data
                                (req_challenge request) in
          let session :=
            mkSession (sess_challenge session) (sess_minimum_age session)
                      (sess_created_at session) "completed" (Some is_valid)
                      (Some now) in
          let verification_details :=
            mkVerificationDetails "zk-SNARKs" is_valid false
              (sess_minimum_age session) "Bilinear pairings on elliptic curves"
              (req_session_id request) in
          (Response (mkZKProofResponse is_valid
                       (if is_valid then "Age verification successful ✅"
                        else "Invalid proof ❌")
                       verification_details),
           mkApp verifier (<[req_session_id request := session]> (active_sessions app)))
  end.

(** Route [/demo-client-proof]: the prover run on the server for
    demonstration.  The dictionary it returns has the key ["proof_data"]
    only when a proof was made. *)
Record ClientProofRequest : Type := mkClientProofRequest {
  cp_actual_age : Z;
  cp_minimum_age : Z;
  cp_challenge : string
}.

Record ClientProofResult : Type := mkClientProofResult {
  success : bool;
  cp_message : string;
  cp_proof_data : option ProofData;
  note : string
}.

Definition demo_client_proof (request : ClientProofRequest) (app : App)
  : Rand (http ClientProofResult) :=
  proof_data ← client_generate_proof (zksnark_verifier app)
                 (cp_actual_age request) (cp_minimum_age request)
                 (cp_challenge request);
  match proof_data with
  | None =>
      mret (Response (mkClientProofResult false
                        "Cannot generate proof - age requirement not met" None
                        "This demonstrates the soundness property of zk-SNARKs"))
  | Some _ =>
      mret (Response (mkClientProofResult true "Proof generated successfully"
                        proof_data
                        "In real implementation, actual_age never leaves client device"))
  end.

(** Route [/active-sessions]: the count of sessions and, per session id,
    its threshold, status and creation instant. *)
Record SessionView : Type := mkSessionView {
  view_minimum_age : Z;
  view_status : string;
  view_created_at : Z
}.

Record ActiveSessions : Type := mkActiveSessions {
  total_sessions : Z;
  sessions : gmap string SessionView
}.

Definition get_active_sessions (app : App) : ActiveSessions :=
  mkActiveSessions
    (Z.of_nat (size (active_sessions app)))
    ((fun session => mkSessionView (sess_minimum_age session) (sess_status session)
                                   (sess_created_at session))
       <$> active_sessions app).

(** Route [/cleanup-sessions]: [active_sessions.clear()]; the verifier
    object is not touched. *)
Definition cleanup_sessions (app : App) : string * App :=
  ("All sessions cleared", mkApp (zksnark_verifier app) ∅).

(** [demo_zksnark_age_verification], with what it prints kept as its
    result: the server's verdict of the first scenario (none when the client
    could not make a proof), and whether the client of the second scenario
    was refused. *)
Definition demo_zksnark_age_verification : Rand (option bool * bool) :=
  verifier ← ZKSNARKAgeVerifier_init;
  issued ← generate_challenge verifier;
  let challenge := issued.1 in
  let verifier := issued.2 in
  let user_age := 25 in
  let minimum_age := 18 in
  proof_data ← client_generate_proof verifier user_age minimum_age challenge;
  let first :=
    match proof_data with
    | Some d =>
        let outcome := server_verify_proof verifier d challenge in
        (Some outcome.1, outcome.2)
    | None => (None, verifier)
    end in
  let verifier := first.2 in
  issued2 ← generate_challenge verifier;
  let challenge2 := issued2.1 in
  let verifier := issued2.2 in
  let user_age_young := 16 in
  proof_data2 ← client_generate_proof verifier user_age_young minimum_age challenge2;
  mret (first.1, match proof_data2 with None => true | Some _ => false end).

(** ** Concrete runs

    The inputs on which the properties are exercised: a pair of tapes, the
    verifier built from them, and the points of a proof in the wire form of
    the protocol (pairs of integers). *)

Definition demo_entropy : Entropy :=
  mkEntropy (fun i => Z.of_nat i + 6) 0
            (fun i => match i with
                      | O => "5f1c"
                      | S O => "9a3e"
                      | S (S O) => "c07d"
                      | _ => "e2b4"
                      end) 0.

Definition demo_verifier : ZKSNARKAgeVerifier :=
  (ZKSNARKAgeVerifier_init demo_entropy).1.

Definition wire_g1 (x y : Z) : pyval := PyList [PyInt x; PyInt y].

Definition wire_g2 (x0 x1 y0 y1 : Z) : pyval :=
  PyList [PyList [PyInt x0; PyInt x1]; PyList [PyInt y0; PyInt y1]].

(** A proof dictionary whose six coordinates are all zero: no point of it
    lies on its curve. *)
Definition zero_points : gmap string pyval :=
  <["a" := wire_g1 0 0]> (<["b" := wire_g2 0 0 0 0]> (<["c" := wire_g1 0 0]> ∅)).

Definition zero_proof : Proof :=
  mkProof (PyTuple [PyInt 0; PyInt 0])
          (PyTuple [PyTuple [PyInt 0; PyInt 0]; PyTuple [PyInt 0; PyInt 0]])
          (PyTuple [PyInt 0; PyInt 0]).

(** Modelled from the spec: the wire representation of a point (section 6:
    a pair of integers for a G1 point, a pair of pairs for a G2 point, all
    reduced modulo the field order).  The source has no encoder; this one
    only prepares sample requests. *)
Definition wire_of_point (v : pyval) : pyval :=
  match v with
  | PyTuple [PyFQ x; PyFQ y] => wire_g1 x y
  | PyTuple [PyFQ2 x0 x1; PyFQ2 y0 y1] => wire_g2 x0 x1 y0 y1
  | _ => v
  end.

(** The service after start-up and after one call of [/request-challenge]
    for the threshold 18 at the instant 0: the challenge is ["5f1c"] and the
    session id ["9a3e"]. *)
Definition demo_app : App := mkApp demo_verifier ∅.

Definition demo_issued : http ChallengeResponse * App * Entropy :=
  request_challenge (mkChallengeRequest 18) 0 demo_app
                    (ZKSNARKAgeVerifier_init demo_entropy).2.

Definition demo_app1 : App := demo_issued.1.2.

(** The bundle an honest prover of age 25 builds for that challenge, and
    its points in wire form. *)
Definition demo_bundle : option ProofData :=
  (client_generate_proof demo_verifier 25 18 "5f1c" demo_issued.2).1.

Definition demo_points : gmap string pyval :=
  wire_of_point <$> default ∅ (pd_proof <$> demo_bundle).

Definition demo_request : ZKProofRequest :=
  mkZKProofRequest demo_points [18; 1] "5f1c" "9a3e".

(** The same request with a point that is no point at all. *)
Definition demo_garbled_request : ZKProofRequest :=
  mkZKProofRequest (<["a" := PyStr "junk"]> demo_points) [18; 1] "5f1c" "9a3e".

(** The service when the same call asks for the threshold 21 instead. *)
Definition demo_app21 : App :=
  (request_challenge (mkChallengeRequest 21) 0 demo_app
                     (ZKSNARKAgeVerifier_init demo_entropy).2).1.2.

(** The verifier after a second challenge, ["c07d"], has been issued while
    ["5f1c"] is still active. *)
Definition demo_two_challenges : ZKSNARKAgeVerifier :=
  (generate_challenge (zksnark_verifier demo_app1) demo_issued.2).1.2.

(** Whether a route's outcome is an accepted verification. *)
Definition accepted (outcome : http ZKProofResponse) : bool :=
  match outcome with
  | Response body => is_valid body
  | HTTPException _ _ => false
  end.

(** * Properties *)

(** ** The random monad and the prover *)

Lemma rand_bind_unfold {A B : Type} (m : Rand A) (k : A -> Rand B) (e : Entropy) :
  mbind k m e = k (m e).1 (m e).2.
Proof. unfold mbind, rand_bind. destruct (m e); reflexivity. Qed.

Lemma generate_proof_unsat (self : ZKSNARKAgeCircuit) (actual_age minimum_age : Z)
    (e : Entropy) :
  actual_age < minimum_age ->
  generate_proof self actual_age minimum_age e = (None, e).
Proof.
  intros Hlt. unfold generate_proof, _age_constraint_circuit.
  assert (Hb : (minimum_age <=? actual_age) = false) by lia.
  rewrite Hb. reflexivity.
Qed.

(** When the constraint holds, the proof is a function of the random draws
    alone: the witness is computed and then left unused. *)
Lemma generate_proof_sat (self : ZKSNARKAgeCircuit) (actual_age minimum_age : Z)
    (e : Entropy) :
  minimum_age <= actual_age ->
  generate_proof self actual_age minimum_age e
  = generate_proof self minimum_age minimum_age e.
Proof.
  intros Hle. unfold generate_proof, _age_constraint_circuit.
  assert (Hb : (minimum_age <=? actual_age) = true) by lia.
  rewrite Hb, Z.leb_refl. reflexivity.
Qed.

Lemma generate_proof_cases (self : ZKSNARKAgeCircuit) (actual_age minimum_age : Z)
    (e : Entropy) :
  (actual_age < minimum_age /\
   generate_proof self actual_age minimum_age e = (None, e))
  \/ (minimum_age <= actual_age /\
      exists ka kb kc e',
        generate_proof self actual_age minimum_age e
        = (Some (mkProof (py_of_G1 (multiply G1 ka)) (py_of_G2 (multiply G2 kb))
                         (py_of_G1 (multiply G1 kc)),
                 [minimum_age; 1]), e')).
Proof.
  destruct (Z.lt_ge_cases actual_age minimum_age) as [Hlt | Hge].
  - left. split; [exact Hlt | apply generate_proof_unsat; exact Hlt].
  - right. split; [exact Hge |].
    unfold generate_proof, _age_constraint_circuit.
    assert (Hb : (minimum_age <=? actual_age) = true) by lia.
    rewrite Hb. cbn [negb].
    do 4 eexists. reflexivity.
Qed.

(** ** The verifier's structural checks *)

Lemma g1_point_of_curve_invalid (pt : option (Z * Z)) :
  _is_valid_g1_point (py_of_G1 pt) = false.
Proof. destruct pt as [[x y] |]; reflexivity. Qed.

Lemma verify_proof_needs_valid_a (self : ZKSNARKAgeCircuit) (proof : Proof)
    (public_inputs : list Z) :
  _is_valid_g1_point (a proof) = false ->
  verify_proof self proof public_inputs = false.
Proof.
  intros Ha. unfold verify_proof.
  destruct public_inputs as [| m [| r [| ? ?]]]; try reflexivity.
  destruct (r =? 1); cbn [negb]; [| reflexivity].
  rewrite Ha. reflexivity.
Qed.

(** The verdict of [verify_proof] is the conjunction of its shape checks. *)
Lemma verify_proof_structural (self : ZKSNARKAgeCircuit) (proof : Proof)
    (public_inputs : list Z) :
  verify_proof self proof public_inputs = true <->
  exists minimum_age,
    public_inputs = [minimum_age; 1] /\ 0 <= minimum_age /\
    _is_valid_g1_point (a proof) = true /\
    _is_valid_g2_point (b proof) = true /\
    _is_valid_g1_point (c proof) = true.
Proof.
  unfold verify_proof. split.
  - destruct public_inputs as [| m [| r [| ? ?]]]; try discriminate.
    destruct (Z.eqb_spec r 1) as [-> |]; cbn [negb]; [| discriminate].
    destruct (_is_valid_g1_point (a proof)); [| discriminate].
    destruct (_is_valid_g2_point (b proof)); [| discriminate].
    destruct (_is_valid_g1_point (c proof)); [| discriminate].
    cbn. destruct (Z.leb_spec 0 m); [| discriminate].
    intros _. exists m. repeat split; assumption.
  - intros (m & -> & Hm & -> & -> & ->). cbn.
    destruct (Z.leb_spec 0 m); [reflexivity | lia].
Qed.

Lemma tuple_if_list_point (pt : option (Z * Z)) :
  tuple_if_list (py_of_G1 pt) = py_of_G1 pt.
Proof. destruct pt as [[x y] |]; reflexivity. Qed.

(** What [server_verify_proof] does with an unknown challenge, and with an
    active one when the three points are present in the dictionary. *)
Lemma server_verify_proof_inactive (self : ZKSNARKAgeVerifier)
    (proof_data : ProofData) (challenge : string) :
  active_challenges self !! challenge = None ->
  server_verify_proof self proof_data challenge = (false, self).
Proof. intros Hc. unfold server_verify_proof. rewrite Hc. reflexivity. Qed.

Lemma server_verify_proof_active (self : ZKSNARKAgeVerifier)
    (proof_data : ProofData) (challenge : string) (flag : bool)
    (pa pb pc : pyval) :
  active_challenges self !! challenge = Some flag ->
  pd_proof proof_data !! "a" = Some pa ->
  pd_proof proof_data !! "b" = Some pb ->
  pd_proof proof_data !! "c" = Some pc ->
  server_verify_proof self proof_data challenge
  = (verify_proof (circuit self)
       (mkProof (tuple_if_list pa) (tuple_b_point pb) (tuple_if_list pc))
       (pd_public_inputs proof_data),
     mkVerifier (circuit self) (delete challenge (active_challenges self))).
Proof.
  intros Hc Ha Hb Hcc. unfold server_verify_proof, py_getitem.
  rewrite Hc, Ha, Hb, Hcc. reflexivity.
Qed.

Lemma server_verify_proof_consumes (self : ZKSNARKAgeVerifier)
    (proof_data : ProofData) (challenge : string) :
  active_challenges (server_verify_proof self proof_data challenge).2 !! challenge
  = None.
Proof.
  unfold server_verify_proof.
  destruct (active_challenges self !! challenge) eqn:Hc; cbn; [| exact Hc].
  apply lookup_delete_eq.
Qed.

(** The three points that [client_generate_proof] packs. *)
Lemma client_generate_proof_cases (self : ZKSNARKAgeVerifier)
    (actual_age minimum_age : Z) (challenge : string) (e : Entropy) :
  (actual_age < minimum_age /\
   client_generate_proof self actual_age minimum_age challenge e = (None, e))
  \/ (minimum_age <= actual_age /\
      exists ka kb kc token e',
        client_generate_proof self actual_age minimum_age challenge e
        = (Some (mkProofData
                   (<["a" := py_of_G1 (multiply G1 ka)]>
                    (<["b" := py_of_G2 (multiply G2 kb)]>
                     (<["c" := py_of_G1 (multiply G1 kc)]> ∅)))
                   [minimum_age; 1] challenge (Token token)), e')).
Proof.
  unfold client_generate_proof. rewrite rand_bind_unfold.
  destruct (generate_proof_cases (circuit self) actual_age minimum_age e)
    as [[Hlt ->] | [Hge (ka & kb & kc & e' & ->)]].
  - left. split; [exact Hlt | reflexivity].
  - right. split; [exact Hge |]. cbn [fst snd].
    rewrite rand_bind_unfold. do 5 eexists. reflexivity.
Qed.

(** ** The claims *)

(** C1 (fails on the code): the verdict of [verify_proof] comes from shape
    checks alone and no pairing equation is evaluated.  For every circuit,
    hence every verification key, and every threshold [m >= 0], the proof
    whose coordinates are all zero is accepted with public inputs [m, 1],
    although the point (0, 0) does not lie on the curve of G1, so that no
    pairing of it exists. *)
Theorem verify_proof_accepts_off_curve_proof :
  forall (self : ZKSNARKAgeCircuit) (m : N),
    verify_proof self zero_proof [Z.of_N m; 1] = true /\
    is_on_curve (Some (0, 0)) b_G1 = false.
Proof.
  intros self m. split; [| reflexivity].
  apply verify_proof_structural. exists (Z.of_N m).
  repeat split; lia.
Qed.

(** C2: when [actual_age < minimum_age], [generate_proof] returns [None]
    and so does [client_generate_proof], whatever the random draws; no
    randomness is consumed. *)
Theorem generate_proof_refuses_false_statement :
  forall (self : ZKSNARKAgeVerifier) (actual_age minimum_age : Z)
         (challenge : string) (e : Entropy),
    actual_age < minimum_age ->
    generate_proof (circuit self) actual_age minimum_age e = (None, e) /\
    client_generate_proof self actual_age minimum_age challenge e = (None, e).
Proof.
  intros self actual_age minimum_age challenge e Hlt. split.
  - apply generate_proof_unsat; exact Hlt.
  - unfold client_generate_proof. rewrite rand_bind_unfold.
    rewrite generate_proof_unsat by exact Hlt. reflexivity.
Qed.

Lemma generate_proof_refuses_false_statement_witness :
  16 < 18 /\
  generate_proof (circuit demo_verifier) 16 18 demo_entropy = (None, demo_entropy) /\
  client_generate_proof demo_verifier 16 18 "5f1c" demo_entropy
  = (None, demo_entropy).
Proof.
  split; [lia |].
  apply (generate_proof_refuses_false_statement demo_verifier 16 18 "5f1c"
           demo_entropy).
  lia.
Defined.

(** C3 (fails on the code): whenever [client_generate_proof] produces a
    bundle, which it does exactly when [actual_age >= minimum_age], every
    verifier rejects that bundle under every challenge: the points that
    [multiply] returns hold field elements, which [_is_valid_g1_point] does
    not count as integers. *)
Theorem generated_bundle_is_rejected :
  forall (prover server : ZKSNARKAgeVerifier) (actual_age minimum_age : Z)
         (challenge submitted : string) (e : Entropy),
    match (client_generate_proof prover actual_age minimum_age challenge e).1 with
    | Some proof_data =>
        minimum_age <= actual_age /\
        (server_verify_proof server proof_data submitted).1 = false
    | None => actual_age < minimum_age
    end.
Proof.
  intros prover server actual_age minimum_age challenge submitted e.
  destruct (client_generate_proof_cases prover actual_age minimum_age challenge e)
    as [[Hlt ->] | [Hge (ka & kb & kc & token & e' & ->)]]; cbn [fst].
  - exact Hlt.
  - split; [exact Hge |].
    destruct (active_challenges server !! submitted) as [flag |] eqn:Hc.
    + erewrite server_verify_proof_active; [| exact Hc | cbn [pd_proof] ..].
      * cbn [fst]. apply verify_proof_needs_valid_a. cbn [a].
        rewrite tuple_if_list_point. apply g1_point_of_curve_invalid.
      * by simplify_map_eq.
      * by simplify_map_eq.
      * by simplify_map_eq.
    + rewrite server_verify_proof_inactive by exact Hc. reflexivity.
Qed.

(** The run of the source's own demonstration: set up the verifier, issue a
    challenge, prove with age 25 against the threshold 18, submit. *)
Example demo_run_is_rejected :
  let issued := generate_challenge demo_verifier
                  (ZKSNARKAgeVerifier_init demo_entropy).2 in
  let bundle := client_generate_proof issued.1.2 25 18 issued.1.1 issued.2 in
  (fun d => (server_verify_proof issued.1.2 d issued.1.1).1) <$> bundle.1
  = Some false.
Proof. vm_compute. reflexivity. Qed.

(** C4: with the same random draws, two ages that both reach the threshold
    give the same bundle: the same proof, the same public inputs, the same
    remaining randomness. *)
Theorem bundle_independent_of_age :
  forall (self : ZKSNARKAgeVerifier) (age1 age2 minimum_age : Z)
         (challenge : string) (e : Entropy),
    minimum_age <= age1 ->
    minimum_age <= age2 ->
    client_generate_proof self age1 minimum_age challenge e
    = client_generate_proof self age2 minimum_age challenge e.
Proof.
  intros self age1 age2 minimum_age challenge e H1 H2.
  unfold client_generate_proof. rewrite !rand_bind_unfold.
  rewrite (generate_proof_sat _ age1), (generate_proof_sat _ age2) by assumption.
  reflexivity.
Qed.

Lemma bundle_independent_of_age_witness :
  18 <= 19 /\ 18 <= 65 /\
  client_generate_proof demo_verifier 19 18 "5f1c" demo_entropy
  = client_generate_proof demo_verifier 65 18 "5f1c" demo_entropy.
Proof.
  split; [lia |]. split; [lia |].
  apply (bundle_independent_of_age demo_verifier 19 65 18 "5f1c" demo_entropy);
    lia.
Defined.

(** C9 (as the code has it): witness construction applies no range bound.
    For all integers, [generate_proof] refuses exactly when
    [actual_age < minimum_age], the comparison being made on the integers
    before any reduction, and the witness holds the inputs and their
    difference reduced modulo the field size. *)
Theorem proof_generated_iff_threshold_met :
  forall (self : ZKSNARKAgeCircuit) (actual_age minimum_age : Z) (e : Entropy),
    ((generate_proof self actual_age minimum_age e).1 = None
     <-> actual_age < minimum_age) /\
    _polynomial_evaluation self actual_age minimum_age !! "actual_age"
    = Some (actual_age `mod` field_size self) /\
    _polynomial_evaluation self actual_age minimum_age !! "minimum_age"
    = Some (minimum_age `mod` field_size self) /\
    _polynomial_evaluation self actual_age minimum_age !! "result"
    = Some (if minimum_age <=? actual_age then 1 else 0) /\
    _polynomial_evaluation self actual_age minimum_age !! "intermediate"
    = Some ((actual_age - minimum_age) `mod` field_size self).
Proof.
  intros self actual_age minimum_age e. split.
  - destruct (generate_proof_cases self actual_age minimum_age e)
      as [[Hlt ->] | [Hge (ka & kb & kc & e' & ->)]]; cbn [fst]; split.
    + intros _. exact Hlt.
    + reflexivity.
    + discriminate.
    + lia.
  - unfold _polynomial_evaluation. repeat split; by simplify_map_eq.
Qed.

(** C9, counterexample: an age of 200 and a pair of negative ages are not
    refused; each gets a witness and a proof. *)
Lemma out_of_range_ages_get_a_proof :
  snd <$> (generate_proof (circuit demo_verifier) 200 18 demo_entropy).1
  = Some [18; 1] /\
  snd <$> (generate_proof (circuit demo_verifier) (-3) (-7) demo_entropy).1
  = Some [-7; 1] /\
  _polynomial_evaluation (circuit demo_verifier) 200 18 !! "actual_age" = Some 200.
Proof. vm_compute. repeat split; reflexivity. Qed.

(** C10 (fails on the code): the four scalars drawn by the trusted setup are
    stored in the [TrustedSetup] that the circuit keeps, and anyone holding
    the verifier object reads them back. *)
Theorem toxic_waste_is_retained :
  forall e : Entropy,
    let self := (ZKSNARKAgeVerifier_init e).1 in
    let drawn (k : nat) :=
      1 + random_tape e (k + random_pos e)%nat `mod` (curve_order - 1) in
    alpha (setup (circuit self)) = drawn 0%nat /\
    beta (setup (circuit self)) = drawn 1%nat /\
    gamma (setup (circuit self)) = drawn 2%nat /\
    delta (setup (circuit self)) = drawn 3%nat.
Proof. intros e. repeat split; reflexivity. Qed.

Example demo_toxic_waste :
  (alpha (setup (circuit demo_verifier)), beta (setup (circuit demo_verifier)),
   gamma (setup (circuit demo_verifier)), delta (setup (circuit demo_verifier)))
  = (7, 8, 9, 10).
Proof. vm_compute. reflexivity. Qed.

(** ** The routes *)

(** The bundle's own challenge field and its timestamp are never read. *)
Lemma server_verify_proof_ignores_labels (self : ZKSNARKAgeVerifier)
    (points : gmap string pyval) (public_inputs : list Z)
    (c1 c2 : string) (t1 t2 : Timestamp) (challenge : string) :
  server_verify_proof self (mkProofData points public_inputs c1 t1) challenge
  = server_verify_proof self (mkProofData points public_inputs c2 t2) challenge.
Proof. reflexivity. Qed.

(** The three gates of [/verify-zkproof], and what happens behind them. *)
Lemma verify_zkproof_unknown_session (request : ZKProofRequest) (now : Z) (app : App) :
  active_sessions app !! req_session_id request = None ->
  verify_zkproof request now app = (HTTPException 400 "Invalid session ID", app).
Proof. intros Hs. unfold verify_zkproof. rewrite Hs. reflexivity. Qed.

Lemma verify_zkproof_runs (request : ZKProofRequest) (now : Z) (app : App)
    (session : Session) :
  active_sessions app !! req_session_id request = Some session ->
  sess_challenge session = req_challenge request ->
  req_public_inputs request !! 0%nat = Some (sess_minimum_age session) ->
  verify_zkproof request now app
  = let outcome :=
      server_verify_proof (zksnark_verifier app)
        (mkProofData (req_proof request) (req_public_inputs request)
                     (req_challenge request) (Instant now))
        (req_challenge request) in
    (Response (mkZKProofResponse outcome.1
                 (if outcome.1 then "Age verification successful ✅"
                  else "Invalid proof ❌")
                 (mkVerificationDetails "zk-SNARKs" outcome.1 false
                    (sess_minimum_age session)
                    "Bilinear pairings on elliptic curves"
                    (req_session_id request))),
     mkApp outcome.2
       (<[req_session_id request :=
            mkSession (sess_challenge session) (sess_minimum_age session)
                      (sess_created_at session) "completed" (Some outcome.1)
                      (Some now)]> (active_sessions app))).
Proof.
  intros Hs Hc Hm. unfold verify_zkproof. rewrite Hs.
  rewrite bool_decide_eq_false_2 by (intros Hne; apply Hne; exact Hc).
  rewrite (bool_decide_eq_false_2 (_ ≠ _)) by (intros Hne; apply Hne; exact Hm).
  assert (Hlen : (Z.of_nat (length (req_public_inputs request)) <? 1) = false).
  { destruct (req_public_inputs request) as [| x xs]; [discriminate Hm |].
    apply Z.ltb_ge. rewrite length_cons. lia. }
  rewrite Hlen. cbn [orb].
  destruct (server_verify_proof _ _ _) as [is_valid verifier]. reflexivity.
Qed.

Lemma verify_zkproof_response (request : ZKProofRequest) (now : Z) (app app1 : App)
    (body : ZKProofResponse) :
  verify_zkproof request now app = (Response body, app1) ->
  exists session,
    active_sessions app !! req_session_id request = Some session /\
    sess_challenge session = req_challenge request /\
    req_public_inputs request !! 0%nat = Some (sess_minimum_age session).
Proof.
  unfold verify_zkproof.
  destruct (active_sessions app !! req_session_id request) as [session |];
    [| discriminate].
  case_bool_decide as Hc; [discriminate |].
  case_bool_decide as Hm.
  { rewrite orb_true_r. discriminate. }
  intros _. exists session. split; [reflexivity |].
  split; [exact Hc | exact Hm].
Qed.

(** The answer of [/verify-zkproof] depends on the stored session only
    through its challenge and its threshold, and not on the clock. *)
Lemma verify_zkproof_answer_congr (request : ZKProofRequest) (now now' : Z)
    (app app' : App) :
  zksnark_verifier app = zksnark_verifier app' ->
  (fun s => (sess_challenge s, sess_minimum_age s))
    <$> (active_sessions app !! req_session_id request)
  = (fun s => (sess_challenge s, sess_minimum_age s))
    <$> (active_sessions app' !! req_session_id request) ->
  (verify_zkproof request now app).1 = (verify_zkproof request now' app').1.
Proof.
  intros Hv Hs. unfold verify_zkproof.
  destruct (active_sessions app !! req_session_id request) as [s |];
    destruct (active_sessions app' !! req_session_id request) as [s' |];
    try discriminate Hs; [| reflexivity].
  cbn in Hs. injection Hs as Hc Hm. rewrite <- Hc, <- Hm, <- Hv.
  case_bool_decide; [reflexivity |].
  destruct (_ || _); [reflexivity |].
  rewrite (server_verify_proof_ignores_labels _ _ _ _ (req_challenge request)
             (Instant now') (Instant now)).
  destruct (server_verify_proof _ _ _) as [is_valid verifier]. reflexivity.
Qed.

(** C5 (as the code has it): once a submission has been answered, the same
    submission sent again is answered with an ordinary response carrying
    [is_valid = false] and the message of an invalid proof, not with an
    error of its own; and every negative response that a submission on this
    session gets for its proof is that very response. *)
Theorem replay_is_answered_as_invalid_proof :
  forall (request other : ZKProofRequest) (now1 now2 now3 : Z)
         (app app1 app3 : App) (body body3 : ZKProofResponse),
    verify_zkproof request now1 app = (Response body, app1) ->
    (verify_zkproof request now2 app1).1
    = Response (mkZKProofResponse false "Invalid proof ❌"
                  (mkVerificationDetails "zk-SNARKs" false false
                     (minimum_age_required (verification_details body))
                     "Bilinear pairings on elliptic curves"
                     (req_session_id request))) /\
    (req_session_id other = req_session_id request ->
     verify_zkproof other now3 app = (Response body3, app3) ->
     is_valid body3 = false ->
     (verify_zkproof request now2 app1).1 = Response body3).
Proof.
  intros request other now1 now2 now3 app app1 app3 body body3 Hfirst.
  destruct (verify_zkproof_response _ _ _ _ _ Hfirst) as (session & Hs & Hc & Hm).
  rewrite (verify_zkproof_runs _ _ _ _ Hs Hc Hm) in Hfirst. cbv zeta in Hfirst.
  injection Hfirst as Hbody Happ. subst body app1.
  assert (Hreplay :
    (verify_zkproof request now2
       (mkApp
          (server_verify_proof (zksnark_verifier app)
             (mkProofData (req_proof request) (req_public_inputs request)
                          (req_challenge request) (Instant now1))
             (req_challenge request)).2
          (<[req_session_id request :=
               mkSession (sess_challenge session) (sess_minimum_age session)
                         (sess_created_at session) "completed"
                         (Some (server_verify_proof (zksnark_verifier app)
                                  (mkProofData (req_proof request)
                                     (req_public_inputs request)
                                     (req_challenge request) (Instant now1))
                                  (req_challenge request)).1)
                         (Some now1)]> (active_sessions app)))).1
    = Response (mkZKProofResponse false "Invalid proof ❌"
                  (mkVerificationDetails "zk-SNARKs" false false
                     (sess_minimum_age session)
                     "Bilinear pairings on elliptic curves"
                     (req_session_id request)))).
  { erewrite verify_zkproof_runs;
      [| cbn [active_sessions]; apply lookup_insert_eq | exact Hc | exact Hm].
    cbv zeta. cbn [zksnark_verifier sess_minimum_age fst].
    rewrite server_verify_proof_inactive by apply server_verify_proof_consumes.
    reflexivity. }
  cbn [verification_details minimum_age_required]. split; [exact Hreplay |].
  intros Hsid Hother Hneg. rewrite Hreplay.
  destruct (verify_zkproof_response _ _ _ _ _ Hother) as (s3 & Hs3 & Hc3 & Hm3).
  rewrite (verify_zkproof_runs _ _ _ _ Hs3 Hc3 Hm3) in Hother. cbv zeta in Hother.
  injection Hother as Hbody3 _. subst body3. cbn [is_valid] in Hneg.
  rewrite Hneg. rewrite Hsid, Hs in Hs3. injection Hs3 as <-.
  rewrite Hsid. reflexivity.
Qed.

Lemma replay_is_answered_as_invalid_proof_witness :
  verify_zkproof demo_request 10 demo_app1
  = (Response (mkZKProofResponse true "Age verification successful ✅"
                 (mkVerificationDetails "zk-SNARKs" true false 18
                    "Bilinear pairings on elliptic curves" "9a3e")),
     (verify_zkproof demo_request 10 demo_app1).2) /\
  accepted (verify_zkproof demo_request 20
              (verify_zkproof demo_request 10 demo_app1).2).1 = false /\
  (verify_zkproof demo_request 20 (verify_zkproof demo_request 10 demo_app1).2).1
  = (verify_zkproof demo_garbled_request 30 demo_app1).1.
Proof.
  split; [vm_compute; reflexivity |].
  destruct (replay_is_answered_as_invalid_proof demo_request demo_garbled_request
              10 20 30 demo_app1 (verify_zkproof demo_request 10 demo_app1).2
              (verify_zkproof demo_garbled_request 30 demo_app1).2
              (mkZKProofResponse true "Age verification successful ✅"
                 (mkVerificationDetails "zk-SNARKs" true false 18
                    "Bilinear pairings on elliptic curves" "9a3e"))
              (mkZKProofResponse false "Invalid proof ❌"
                 (mkVerificationDetails "zk-SNARKs" false false 18
                    "Bilinear pairings on elliptic curves" "9a3e"))
              ltac:(vm_compute; reflexivity)) as [Hreplay Hsame].
  split.
  - rewrite Hreplay. reflexivity.
  - rewrite (Hsame ltac:(reflexivity) ltac:(vm_compute; reflexivity)
               ltac:(reflexivity)).
    vm_compute; reflexivity.
Defined.

(** C5, counterexample: the valid request is accepted the first time; sent
    again it gets an ordinary response with [is_valid = false] and the
    message of an invalid proof, equal to the response that a garbled proof
    gets on the fresh session. *)
Lemma replay_has_no_distinct_error :
  let first := verify_zkproof demo_request 10 demo_app1 in
  let second := verify_zkproof demo_request 20 first.2 in
  let garbled := verify_zkproof demo_garbled_request 20 demo_app1 in
  accepted first.1 = true /\
  second.1
  = Response (mkZKProofResponse false "Invalid proof ❌"
                (mkVerificationDetails "zk-SNARKs" false false 18
                   "Bilinear pairings on elliptic curves" "9a3e")) /\
  second.1 = garbled.1.
Proof. vm_compute. repeat split; reflexivity. Qed.

(** C6 (as the code has it): challenges carry no time-to-live.  The answer
    to a submission is the same whatever the instant of the submission, and
    whatever the instant at which the challenge was issued; and a submission
    that names an unknown session is turned away with HTTP 400, "Invalid
    session ID", the state being left as it was. *)
Theorem verification_ignores_the_clock :
  forall (request : ZKProofRequest) (now now' : Z) (app : App)
         (asked : ChallengeRequest) (issued_at issued_at' : Z) (e : Entropy),
    (verify_zkproof request now app).1 = (verify_zkproof request now' app).1 /\
    (verify_zkproof request now (request_challenge asked issued_at app e).1.2).1
    = (verify_zkproof request now' (request_challenge asked issued_at' app e).1.2).1 /\
    (active_sessions app !! req_session_id request = None ->
     verify_zkproof request now app = (HTTPException 400 "Invalid session ID", app)).
Proof.
  intros request now now' app asked issued_at issued_at' e. split; [| split].
  - apply verify_zkproof_answer_congr; reflexivity.
  - apply verify_zkproof_answer_congr; [reflexivity |].
    unfold request_challenge. rewrite !rand_bind_unfold. cbn [fst snd mret rand_ret active_sessions].
    rewrite !lookup_insert. case_decide; reflexivity.
  - intros Hnone. unfold verify_zkproof. rewrite Hnone. reflexivity.
Qed.

Lemma verification_ignores_the_clock_witness :
  active_sessions demo_app !! req_session_id demo_request = None /\
  verify_zkproof demo_request 10 demo_app
  = (HTTPException 400 "Invalid session ID", demo_app) /\
  (verify_zkproof demo_request 10 demo_app1).1
  = (verify_zkproof demo_request 1000000 demo_app1).1.
Proof.
  destruct (verification_ignores_the_clock demo_request 10 1000000 demo_app
              (mkChallengeRequest 18) 0 0 demo_entropy) as (_ & _ & Hunknown).
  destruct (verification_ignores_the_clock demo_request 10 1000000 demo_app1
              (mkChallengeRequest 18) 0 0 demo_entropy) as (Hclock & _ & _).
  split; [vm_compute; reflexivity |].
  split; [apply Hunknown; vm_compute; reflexivity | exact Hclock].
Defined.

(** C6, counterexample: the challenge issued at the instant 0 is accepted
    a million seconds later. *)
Lemma stale_challenge_is_accepted :
  sess_created_at <$> (active_sessions demo_app1 !! "9a3e") = Some 0 /\
  accepted (verify_zkproof demo_request 1000000 demo_app1).1 = true.
Proof. vm_compute. split; reflexivity. Qed.

(** C7: a submission whose first public input differs from the threshold
    recorded in its session is turned away with an HTTP 400 before any
    verification, and the state is left as it was; an accepted submission
    therefore carries the session's threshold. *)
Theorem threshold_is_bound_to_session :
  forall (request : ZKProofRequest) (now : Z) (app : App) (session : Session),
    active_sessions app !! req_session_id request = Some session ->
    (req_public_inputs request !! 0%nat <> Some (sess_minimum_age session) ->
     exists detail,
       verify_zkproof request now app = (HTTPException 400 detail, app)) /\
    (accepted (verify_zkproof request now app).1 = true ->
     req_public_inputs request !! 0%nat = Some (sess_minimum_age session)).
Proof.
  intros request now app session Hs. unfold verify_zkproof. rewrite Hs. split.
  - intros Hm. case_bool_decide; [eexists; reflexivity |].
    rewrite (bool_decide_eq_true_2 (_ ≠ _)) by exact Hm.
    rewrite orb_true_r. eexists; reflexivity.
  - case_bool_decide; [discriminate |].
    case_bool_decide as Hm; [rewrite orb_true_r; discriminate |].
    intros _. exact Hm.
Qed.

Lemma threshold_is_bound_to_session_witness :
  active_sessions demo_app21 !! "9a3e"
  = Some (mkSession "5f1c" 21 0 "pending" None None) /\
  req_public_inputs demo_request !! 0%nat <> Some 21 /\
  exists detail,
    verify_zkproof demo_request 10 demo_app21 = (HTTPException 400 detail, demo_app21).
Proof.
  split; [vm_compute; reflexivity |].
  split; [discriminate |].
  apply (proj1 (threshold_is_bound_to_session demo_request 10 demo_app21
                  (mkSession "5f1c" 21 0 "pending" None None)
                  ltac:(vm_compute; reflexivity))).
  discriminate.
Defined.



(** ** Further properties of the verifier's checks *)

(** X1: a G1 point passes exactly when it is a tuple or a list of two
    items that are both integers (booleans included); any other arity and
    any other kind of coordinate is turned down. *)
Theorem g1_point_valid_iff :
  forall point : pyval,
    _is_valid_g1_point point = true <->
    exists x y,
      (point = PyTuple [x; y] \/ point = PyList [x; y]) /\
      isinstance_int x = true /\ isinstance_int y = true.
Proof.
  intros point. unfold _is_valid_g1_point. split.
  - destruct point as [| | | | | | items | items]; cbn [seq_items];
      try discriminate;
      destruct items as [| x [| y [| ? ?]]]; try discriminate;
      intros Hxy; apply andb_true_iff in Hxy; exists x, y; tauto.
  - intros (x & y & [-> | ->] & Hx & Hy); cbn [seq_items];
      rewrite Hx, Hy; reflexivity.
Qed.

(** X2: the G2 check lets through any pair whose coordinates are not both
    two-element sequences, whatever those coordinates are. *)
Theorem g2_point_fall_through :
  forall coord1 coord2 : pyval,
    (forall u v, seq_items coord1 <> Some [u; v]) \/
    (forall u v, seq_items coord2 <> Some [u; v]) ->
    _is_valid_g2_point (PyTuple [coord1; coord2]) = true /\
    _is_valid_g2_point (PyList [coord1; coord2]) = true.
Proof.
  intros coord1 coord2 Hnot.
  assert (Hbody :
    match seq_items coord1, seq_items coord2 with
    | Some [_; _], Some [_; _] =>
        xs ← py_add_seq coord1 coord2; Ret (forallb isinstance_int xs)
    | _, _ => Ret true
    end = Ret true).
  { destruct (seq_items coord1) as [[| u1 [| v1 [| ? ?]]] |] eqn:H1;
      try reflexivity;
      destruct (seq_items coord2) as [[| u2 [| v2 [| ? ?]]] |] eqn:H2;
      try reflexivity.
    destruct Hnot as [Hn | Hn]; exfalso.
    - exact (Hn u1 v1 eq_refl).
    - exact (Hn u2 v2 eq_refl). }
  unfold _is_valid_g2_point. cbn [seq_items]. rewrite Hbody. split; reflexivity.
Qed.

Lemma g2_point_fall_through_witness :
  _is_valid_g2_point (PyTuple [PyStr "junk"; PyNone]) = true /\
  _is_valid_g2_point (PyList [PyStr "junk"; PyNone]) = true.
Proof.
  apply (g2_point_fall_through (PyStr "junk") PyNone).
  left. intros u v. discriminate.
Defined.

(** X3: when both coordinates of a G2 point are pairs, the point passes
    exactly when all four entries are integers and the two pairs are of the
    same kind; a tuple next to a list is turned down (their concatenation
    raises), integers or not. *)
Theorem g2_point_of_pairs :
  forall x0 x1 y0 y1 : pyval,
    _is_valid_g2_point (PyTuple [PyTuple [x0; x1]; PyTuple [y0; y1]])
    = forallb isinstance_int [x0; x1; y0; y1] /\
    _is_valid_g2_point (PyTuple [PyList [x0; x1]; PyList [y0; y1]])
    = forallb isinstance_int [x0; x1; y0; y1] /\
    _is_valid_g2_point (PyTuple [PyTuple [x0; x1]; PyList [y0; y1]]) = false /\
    _is_valid_g2_point (PyTuple [PyList [x0; x1]; PyTuple [y0; y1]]) = false.
Proof. intros x0 x1 y0 y1. repeat split; reflexivity. Qed.

(** X4: public inputs that are not exactly two long are rejected, whatever
    the proof: unpacking them raises and the handler answers [False]. *)
Theorem verify_proof_wrong_arity :
  forall (self : ZKSNARKAgeCircuit) (proof : Proof) (public_inputs : list Z),
    length public_inputs <> 2%nat ->
    verify_proof self proof public_inputs = false.
Proof.
  intros self proof public_inputs Hlen. unfold verify_proof.
  destruct public_inputs as [| m [| r [| ? ?]]]; try reflexivity.
  exfalso. apply Hlen. reflexivity.
Qed.

Lemma verify_proof_wrong_arity_witness :
  length [18; 1; 0] <> 2%nat /\
  verify_proof (circuit demo_verifier) zero_proof [18; 1; 0] = false.
Proof.
  split; [discriminate |].
  apply (verify_proof_wrong_arity (circuit demo_verifier) zero_proof [18; 1; 0]).
  discriminate.
Defined.

(** X5: a claimed result other than 1, or a negative threshold, is rejected
    whatever the proof. *)
Theorem verify_proof_bad_public_inputs :
  forall (self : ZKSNARKAgeCircuit) (proof : Proof) (minimum_age result : Z),
    result <> 1 \/ minimum_age < 0 ->
    verify_proof self proof [minimum_age; result] = false.
Proof.
  intros self proof minimum_age result Hbad.
  destruct (verify_proof self proof [minimum_age; result]) eqn:Hv; [| reflexivity].
  apply verify_proof_structural in Hv.
  destruct Hv as (m & Heq & Hm & _). injection Heq as -> ->.
  destruct Hbad as [Hr | Hneg]; [congruence | lia].
Qed.

Lemma verify_proof_bad_public_inputs_witness :
  (0 <> 1 \/ 18 < 0) /\
  verify_proof (circuit demo_verifier) zero_proof [18; 0] = false /\
  verify_proof (circuit demo_verifier) zero_proof [-1; 1] = false.
Proof.
  split; [left; discriminate |]. split.
  - apply (verify_proof_bad_public_inputs (circuit demo_verifier) zero_proof 18 0).
    left. discriminate.
  - apply (verify_proof_bad_public_inputs (circuit demo_verifier) zero_proof (-1) 1).
    right. lia.
Defined.

(** ** Further properties of the challenge store *)

(** X6: a challenge is good for one call only, whatever the outcome of
    that call: a second [server_verify_proof] with the same challenge
    answers [False] for every bundle. *)
Theorem challenge_is_single_use :
  forall (self : ZKSNARKAgeVerifier) (first second : ProofData) (challenge : string),
    (server_verify_proof (server_verify_proof self first challenge).2
                         second challenge).1 = false.
Proof.
  intros self first second challenge.
  rewrite server_verify_proof_inactive by apply server_verify_proof_consumes.
  reflexivity.
Qed.

(** X7: [server_verify_proof] touches nothing but the challenge it is
    given: every other challenge keeps its state, and the circuit stays. *)
Theorem server_verify_proof_frame :
  forall (self : ZKSNARKAgeVerifier) (proof_data : ProofData)
         (challenge other : string),
    other <> challenge ->
    active_challenges (server_verify_proof self proof_data challenge).2 !! other
    = active_challenges self !! other /\
    circuit (server_verify_proof self proof_data challenge).2 = circuit self.
Proof.
  intros self proof_data challenge other Hne. unfold server_verify_proof.
  destruct (active_challenges self !! challenge); cbn [snd active_challenges circuit].
  - split; [apply lookup_delete_ne; congruence | reflexivity].
  - split; reflexivity.
Qed.

Lemma server_verify_proof_frame_witness :
  "5f1c" <> "c07d" /\
  active_challenges
    (server_verify_proof demo_two_challenges
       (mkProofData demo_points [18; 1] "c07d" (Token "e2b4")) "c07d").2 !! "5f1c"
  = active_challenges demo_two_challenges !! "5f1c".
Proof.
  split; [discriminate |].
  apply (server_verify_proof_frame demo_two_challenges
           (mkProofData demo_points [18; 1] "c07d" (Token "e2b4")) "c07d" "5f1c").
  discriminate.
Defined.

(** X8: a bundle that lacks one of the three points is answered [False],
    and the challenge it came with is spent all the same. *)
Theorem missing_point_spends_challenge :
  forall (self : ZKSNARKAgeVerifier) (proof_data : ProofData)
         (challenge : string) (flag : bool),
    active_challenges self !! challenge = Some flag ->
    pd_proof proof_data !! "a" = None \/
    pd_proof proof_data !! "b" = None \/
    pd_proof proof_data !! "c" = None ->
    server_verify_proof self proof_data challenge
    = (false, mkVerifier (circuit self) (delete challenge (active_challenges self))).
Proof.
  intros self proof_data challenge flag Hc Hmiss.
  unfold server_verify_proof, py_getitem. rewrite Hc.
  destruct (pd_proof proof_data !! "a") as [pa |] eqn:Ha; [| reflexivity].
  destruct (pd_proof proof_data !! "b") as [pb |] eqn:Hb; [| reflexivity].
  destruct (pd_proof proof_data !! "c") as [pc |] eqn:Hcc; [| reflexivity].
  destruct Hmiss as [H | [H | H]]; discriminate H.
Qed.

Lemma missing_point_spends_challenge_witness :
  active_challenges demo_two_challenges !! "5f1c" = Some true /\
  server_verify_proof demo_two_challenges
    (mkProofData (delete "b" demo_points) [18; 1] "5f1c" (Token "e2b4")) "5f1c"
  = (false,
     mkVerifier (circuit demo_two_challenges)
                (delete "5f1c" (active_challenges demo_two_challenges))).
Proof.
  split; [vm_compute; reflexivity |].
  apply (missing_point_spends_challenge demo_two_challenges
           (mkProofData (delete "b" demo_points) [18; 1] "5f1c" (Token "e2b4"))
           "5f1c" true).
  - vm_compute; reflexivity.
  - right. left. vm_compute; reflexivity.
Defined.

Lemma tuple_if_list_idem (v : pyval) :
  tuple_if_list (tuple_if_list v) = tuple_if_list v.
Proof. destruct v; reflexivity. Qed.

Lemma tuple_b_point_idem (v : pyval) :
  tuple_b_point (tuple_b_point v) = tuple_b_point v.
Proof. destruct v; reflexivity. Qed.

(** X9: points sent as JSON arrays and the same points sent as tuples get
    the same answer and leave the same state: the conversion that
    [server_verify_proof] applies first can as well be applied by the
    sender. *)
Theorem lists_verify_as_tuples :
  forall (self : ZKSNARKAgeVerifier) (proof_data : ProofData)
         (challenge : string) (pa pb pc : pyval),
    pd_proof proof_data !! "a" = Some pa ->
    pd_proof proof_data !! "b" = Some pb ->
    pd_proof proof_data !! "c" = Some pc ->
    server_verify_proof self proof_data challenge
    = server_verify_proof self
        (mkProofData
           (<["a" := tuple_if_list pa]>
            (<["b" := tuple_b_point pb]>
             (<["c" := tuple_if_list pc]> (pd_proof proof_data))))
           (pd_public_inputs proof_data) (pd_challenge proof_data)
           (pd_timestamp proof_data))
        challenge.
Proof.
  intros self proof_data challenge pa pb pc Ha Hb Hc.
  destruct (active_challenges self !! challenge) as [flag |] eqn:Hact.
  - rewrite (server_verify_proof_active _ _ _ _ _ _ _ Hact Ha Hb Hc).
    erewrite (server_verify_proof_active _ (mkProofData _ _ _ _));
      [| exact Hact | cbn [pd_proof]; by simplify_map_eq ..].
    cbn [pd_public_inputs].
    rewrite !tuple_if_list_idem, tuple_b_point_idem. reflexivity.
  - rewrite !server_verify_proof_inactive by exact Hact. reflexivity.
Qed.

Lemma lists_verify_as_tuples_witness :
  exists pa pb pc,
    demo_points !! "a" = Some pa /\
    demo_points !! "b" = Some pb /\
    demo_points !! "c" = Some pc /\
    server_verify_proof demo_two_challenges
      (mkProofData demo_points [18; 1] "5f1c" (Token "e2b4")) "5f1c"
    = server_verify_proof demo_two_challenges
        (mkProofData
           (<["a" := tuple_if_list pa]>
            (<["b" := tuple_b_point pb]>
             (<["c" := tuple_if_list pc]> demo_points)))
           [18; 1] "5f1c" (Token "e2b4")) "5f1c".
Proof.
  do 3 eexists.
  split; [vm_compute; reflexivity |].
  split; [vm_compute; reflexivity |].
  split; [vm_compute; reflexivity |].
  apply (lists_verify_as_tuples demo_two_challenges
           (mkProofData demo_points [18; 1] "5f1c" (Token "e2b4")) "5f1c");
    vm_compute; reflexivity.
Defined.

(** X10: issuing a challenge and submitting a bundle under it runs the
    proof check itself, and afterwards the store is the one from before the
    issue, without that challenge. *)
Theorem issued_challenge_reaches_the_check :
  forall (self : ZKSNARKAgeVerifier) (e : Entropy) (proof_data : ProofData)
         (pa pb pc : pyval),
    pd_proof proof_data !! "a" = Some pa ->
    pd_proof proof_data !! "b" = Some pb ->
    pd_proof proof_data !! "c" = Some pc ->
    server_verify_proof (generate_challenge self e).1.2 proof_data
                        (generate_challenge self e).1.1
    = (verify_proof (circuit self)
         (mkProof (tuple_if_list pa) (tuple_b_point pb) (tuple_if_list pc))
         (pd_public_inputs proof_data),
       mkVerifier (circuit self)
         (delete (generate_challenge self e).1.1 (active_challenges self))).
Proof.
  intros self e proof_data pa pb pc Ha Hb Hc.
  unfold generate_challenge. rewrite rand_bind_unfold.
  cbn [fst snd mret rand_ret].
  erewrite server_verify_proof_active;
    [| cbn [active_challenges]; apply lookup_insert_eq | exact Ha | exact Hb | exact Hc].
  cbn [circuit active_challenges]. rewrite delete_insert_eq. reflexivity.
Qed.

Lemma issued_challenge_reaches_the_check_witness :
  (server_verify_proof (generate_challenge demo_verifier demo_entropy).1.2
     (mkProofData zero_points [18; 1] "5f1c" (Token "e2b4"))
     (generate_challenge demo_verifier demo_entropy).1.1).1 = true.
Proof.
  rewrite (issued_challenge_reaches_the_check demo_verifier demo_entropy
             (mkProofData zero_points [18; 1] "5f1c" (Token "e2b4"))
             (wire_g1 0 0) (wire_g2 0 0 0 0) (wire_g1 0 0)
             ltac:(vm_compute; reflexivity) ltac:(vm_compute; reflexivity)
             ltac:(vm_compute; reflexivity)).
  reflexivity.
Defined.

(** X11: a verifier that has issued no challenge yet answers [False] to
    every submission and stays as it is. *)
Theorem fresh_verifier_rejects_everything :
  forall (e : Entropy) (proof_data : ProofData) (challenge : string),
    server_verify_proof (ZKSNARKAgeVerifier_init e).1 proof_data challenge
    = (false, (ZKSNARKAgeVerifier_init e).1).
Proof.
  intros e proof_data challenge. apply server_verify_proof_inactive.
  unfold ZKSNARKAgeVerifier_init. rewrite rand_bind_unfold.
  cbn [fst snd mret rand_ret active_challenges]. apply lookup_empty.
Qed.

(** ** Further properties of the circuit *)

Lemma randint_range (lo hi : Z) (e : Entropy) :
  lo <= hi -> lo <= (randint lo hi e).1 <= hi.
Proof.
  intros Hle. unfold randint. cbn [fst].
  pose proof (Z.mod_pos_bound (random_tape e (random_pos e)) (hi - lo + 1)
                ltac:(lia)).
  lia.
Qed.

Lemma randint_advances (lo hi : Z) (e : Entropy) :
  (randint lo hi e).2
  = mkEntropy (random_tape e) (S (random_pos e)) (secrets_tape e) (secrets_pos e).
Proof. reflexivity. Qed.

Lemma setup_loop_shape (n : nat) :
  forall (l1 l2 : list pyval) (e : Entropy),
    length (setup_loop n l1 l2 e).1.1 = (length l1 + n)%nat /\
    length (setup_loop n l1 l2 e).1.2 = (length l2 + n)%nat /\
    (setup_loop n l1 l2 e).2
    = mkEntropy (random_tape e) (2 * n + random_pos e) (secrets_tape e)
                (secrets_pos e).
Proof.
  induction n as [| n IH]; intros l1 l2 e.
  - cbn. destruct e. repeat split; lia.
  - cbn [setup_loop]. rewrite !rand_bind_unfold, !randint_advances.
    cbn [fst snd random_tape random_pos secrets_tape secrets_pos].
    destruct (IH (l1 ++ [py_of_G1 (multiply G1 (randint 1 (curve_order - 1) e).1)])
                 (l2 ++ [py_of_G1 (multiply G1
                    (randint 1 (curve_order - 1)
                       (mkEntropy (random_tape e) (S (random_pos e))
                                  (secrets_tape e) (secrets_pos e))).1)])
                 (mkEntropy (random_tape e) (S (S (random_pos e)))
                            (secrets_tape e) (secrets_pos e)))
      as (H1 & H2 & H3).
    rewrite H1, H2, H3, !length_app. cbn [length random_tape random_pos
                                           secrets_tape secrets_pos].
    repeat split; try lia. f_equal. lia.
Qed.

(** X12: the trusted setup draws ten scalars and nothing else: four kept
    as they are, each between 1 and [curve_order - 1], and six that become
    the three entries of [gamma_abc] and the three of [ic]; the secrets
    source is not read, and the circuit's field size is the curve order. *)
Theorem trusted_setup_shape :
  forall e : Entropy,
    let made := ZKSNARKAgeCircuit_init e in
    length (gamma_abc (setup made.1)) = 3%nat /\
    length (ic (setup made.1)) = 3%nat /\
    1 <= alpha (setup made.1) <= curve_order - 1 /\
    1 <= beta (setup made.1) <= curve_order - 1 /\
    1 <= gamma (setup made.1) <= curve_order - 1 /\
    1 <= delta (setup made.1) <= curve_order - 1 /\
    field_size made.1 = curve_order /\
    made.2 = mkEntropy (random_tape e) (10 + random_pos e) (secrets_tape e)
                       (secrets_pos e).
Proof.
  intros e made. subst made.
  unfold ZKSNARKAgeCircuit_init, _generate_trusted_setup.
  rewrite !rand_bind_unfold, !randint_advances.
  cbn [fst snd mret rand_ret setup field_size gamma_abc ic alpha beta gamma delta
       random_tape random_pos secrets_tape secrets_pos].
  set (e4 := mkEntropy (random_tape e) (S (S (S (S (random_pos e)))))
                       (secrets_tape e) (secrets_pos e)).
  destruct (setup_loop_shape 3 [] [] e4) as (H1 & H2 & H3).
  assert (Hco : 1 <= curve_order - 1) by (unfold curve_order; lia).
  rewrite H1, H2, H3. subst e4.
  cbn [length random_tape random_pos secrets_tape secrets_pos].
  repeat split; try reflexivity; try (apply randint_range; exact Hco).
Qed.

(** X13: for ages inside the field and a threshold that is met, the
    witness holds the two ages as they are, the result 1 and the plain
    difference: [actual_age = minimum_age + intermediate]. *)
Theorem witness_of_true_statement :
  forall (self : ZKSNARKAgeCircuit) (actual_age minimum_age : Z),
    0 <= minimum_age ->
    minimum_age <= actual_age ->
    actual_age < field_size self ->
    _polynomial_evaluation self actual_age minimum_age !! "actual_age"
    = Some actual_age /\
    _polynomial_evaluation self actual_age minimum_age !! "minimum_age"
    = Some minimum_age /\
    _polynomial_evaluation self actual_age minimum_age !! "result" = Some 1 /\
    _polynomial_evaluation self actual_age minimum_age !! "intermediate"
    = Some (actual_age - minimum_age).
Proof.
  intros self actual_age minimum_age H0 Hle Hlt. unfold _polynomial_evaluation.
  assert (Hb : (minimum_age <=? actual_age) = true) by lia.
  rewrite Hb.
  repeat split; simplify_map_eq; f_equal; apply Z.mod_small; lia.
Qed.

Lemma witness_of_true_statement_witness :
  0 <= 18 /\ 18 <= 25 /\ 25 < field_size (circuit demo_verifier) /\
  _polynomial_evaluation (circuit demo_verifier) 25 18 !! "intermediate" = Some 7.
Proof.
  split; [lia |]. split; [lia |]. split; [vm_compute; reflexivity |].
  apply (witness_of_true_statement (circuit demo_verifier) 25 18);
    [lia | lia | vm_compute; reflexivity].
Defined.

(** X14: for ages inside the field and a threshold that is not met, the
    witness records the result 0, and its difference entry has wrapped
    around to the field size less the shortfall. *)
Theorem witness_of_false_statement :
  forall (self : ZKSNARKAgeCircuit) (actual_age minimum_age : Z),
    0 <= actual_age ->
    actual_age < minimum_age ->
    minimum_age < field_size self ->
    _polynomial_evaluation self actual_age minimum_age !! "result" = Some 0 /\
    _polynomial_evaluation self actual_age minimum_age !! "intermediate"
    = Some (field_size self - (minimum_age - actual_age)).
Proof.
  intros self actual_age minimum_age H0 Hlt Hm. unfold _polynomial_evaluation.
  assert (Hb : (minimum_age <=? actual_age) = false) by lia.
  rewrite Hb.
  split; simplify_map_eq; [reflexivity |]. f_equal.
  symmetry. apply (Z.mod_unique _ _ (-1)); lia.
Qed.

Lemma witness_of_false_statement_witness :
  0 <= 16 /\ 16 < 18 /\ 18 < field_size (circuit demo_verifier) /\
  _polynomial_evaluation (circuit demo_verifier) 16 18 !! "result" = Some 0 /\
  _polynomial_evaluation (circuit demo_verifier) 16 18 !! "intermediate"
  = Some (field_size (circuit demo_verifier) - (18 - 16)).
Proof.
  split; [lia |]. split; [lia |]. split; [vm_compute; reflexivity |].
  apply (witness_of_false_statement (circuit demo_verifier) 16 18);
    [lia | lia | vm_compute; reflexivity].
Defined.

(** ** Further properties of the routes *)

(** X15: [/request-challenge] answers with the next two tokens of the
    secrets source as challenge and session id, stores a pending session
    that binds the challenge to the requested threshold and the instant,
    marks the challenge active, and reads no random number. *)
Theorem request_challenge_opens_session :
  forall (request : ChallengeRequest) (now : Z) (app : App) (e : Entropy),
    let done := request_challenge request now app e in
    let challenge := secrets_tape e (secrets_pos e) in
    let session_id := secrets_tape e (S (secrets_pos e)) in
    done.1.1
    = Response (mkChallengeResponse challenge (creq_minimum_age request) session_id
                  "Challenge generated. Generate proof on client side.") /\
    active_sessions done.1.2 !! session_id
    = Some (mkSession challenge (creq_minimum_age request) now "pending" None None) /\
    active_challenges (zksnark_verifier done.1.2) !! challenge = Some true /\
    circuit (zksnark_verifier done.1.2) = circuit (zksnark_verifier app) /\
    done.2 = mkEntropy (random_tape e) (random_pos e) (secrets_tape e)
                       (S (S (secrets_pos e))).
Proof.
  intros request now app e done challenge session_id.
  subst done challenge session_id.
  unfold request_challenge, generate_challenge. rewrite !rand_bind_unfold.
  cbn [fst snd mret rand_ret token_hex active_sessions zksnark_verifier
       active_challenges circuit random_tape random_pos secrets_tape secrets_pos].
  repeat split; try reflexivity; apply lookup_insert_eq.
Qed.

(** What [/request-challenge] leaves in the two stores. *)
Lemma request_challenge_stores (request : ChallengeRequest) (now : Z) (app : App)
    (e : Entropy) :
  active_sessions (request_challenge request now app e).1.2
    !! secrets_tape e (S (secrets_pos e))
  = Some (mkSession (secrets_tape e (secrets_pos e)) (creq_minimum_age request) now
                    "pending" None None) /\
  active_challenges (zksnark_verifier (request_challenge request now app e).1.2)
    !! secrets_tape e (secrets_pos e) = Some true.
Proof.
  unfold request_challenge, generate_challenge. rewrite !rand_bind_unfold.
  cbn [fst snd mret rand_ret token_hex active_sessions zksnark_verifier
       active_challenges random_tape random_pos secrets_tape secrets_pos].
  split; apply lookup_insert_eq.
Qed.

(** X16: a session just opened accepts a submission that echoes its
    challenge, session id and threshold with result 1 and carries three
    well-shaped points, provided the threshold is not negative; the session
    is then completed with the result [True] and the challenge is spent. *)
Theorem opened_session_accepts_well_shaped_proof :
  forall (request : ChallengeRequest) (now later : Z) (app : App) (e : Entropy)
         (points : gmap string pyval) (pa pb pc : pyval),
    0 <= creq_minimum_age request ->
    points !! "a" = Some pa ->
    points !! "b" = Some pb ->
    points !! "c" = Some pc ->
    _is_valid_g1_point (tuple_if_list pa) = true ->
    _is_valid_g2_point (tuple_b_point pb) = true ->
    _is_valid_g1_point (tuple_if_list pc) = true ->
    let done := request_challenge request now app e in
    let challenge := secrets_tape e (secrets_pos e) in
    let session_id := secrets_tape e (S (secrets_pos e)) in
    let answer :=
      verify_zkproof
        (mkZKProofRequest points [creq_minimum_age request; 1] challenge session_id)
        later done.1.2 in
    accepted answer.1 = true /\
    active_sessions answer.2 !! session_id
    = Some (mkSession challenge (creq_minimum_age request) now "completed"
                      (Some true) (Some later)) /\
    active_challenges (zksnark_verifier answer.2) !! challenge = None.
Proof.
  intros request now later app e points pa pb pc Hm Ha Hb Hc Hva Hvb Hvc
         done challenge session_id answer.
  destruct (request_challenge_stores request now app e) as (Hs & Hact).
  fold done challenge session_id in Hs, Hact.
  assert (Hverdict :
    server_verify_proof (zksnark_verifier done.1.2)
      (mkProofData points [creq_minimum_age request; 1] challenge (Instant later))
      challenge
    = (true, mkVerifier (circuit (zksnark_verifier done.1.2))
               (delete challenge (active_challenges (zksnark_verifier done.1.2))))).
  { erewrite server_verify_proof_active;
      [| exact Hact | exact Ha | exact Hb | exact Hc].
    f_equal. apply verify_proof_structural.
    exists (creq_minimum_age request). cbn [a b c pd_public_inputs].
    repeat split; assumption. }
  subst answer.
  erewrite verify_zkproof_runs;
    [| cbn [req_session_id]; exact Hs | reflexivity | reflexivity].
  cbv zeta.
  cbn [req_proof req_public_inputs req_challenge req_session_id
       sess_challenge sess_minimum_age sess_created_at].
  rewrite Hverdict.
  cbn [fst snd accepted is_valid active_sessions zksnark_verifier active_challenges].
  repeat split; [apply lookup_insert_eq | apply lookup_delete_eq].
Qed.

Lemma opened_session_accepts_well_shaped_proof_witness :
  0 <= 18 /\
  accepted
    (verify_zkproof
       (mkZKProofRequest demo_points [18; 1] "5f1c" "9a3e") 10
       (request_challenge (mkChallengeRequest 18) 0 demo_app demo_entropy).1.2).1
  = true.
Proof.
  split; [lia |].
  apply (opened_session_accepts_well_shaped_proof (mkChallengeRequest 18) 0 10
           demo_app demo_entropy demo_points
           (wire_of_point (py_of_G1 (multiply G1 19)))
           (wire_of_point (py_of_G2 (multiply G2 20)))
           (wire_of_point (py_of_G1 (multiply G1 21))));
    [cbn; lia | vm_compute; reflexivity ..].
Defined.

(** X17: when [/verify-zkproof] raises, the status is 400, the detail is
    one of the three gate messages, and nothing has changed: no session is
    altered and no challenge is spent. *)
Theorem rejected_request_changes_nothing :
  forall (request : ZKProofRequest) (now : Z) (app app' : App)
         (status_code : Z) (detail : string),
    verify_zkproof request now app = (HTTPException status_code detail, app') ->
    app' = app /\ status_code = 400 /\
    (detail = "Invalid session ID" \/ detail = "Challenge mismatch" \/
     detail = "Minimum age mismatch").
Proof.
  intros request now app app' status_code detail. unfold verify_zkproof.
  destruct (active_sessions app !! req_session_id request) as [session |].
  - case_bool_decide.
    + intros H'. injection H' as <- <- <-. auto.
    + destruct (_ || _).
      * intros H'. injection H' as <- <- <-. auto.
      * destruct (server_verify_proof _ _ _). discriminate.
  - intros H'. injection H' as <- <- <-. auto.
Qed.

Lemma rejected_request_changes_nothing_witness :
  verify_zkproof demo_request 10 demo_app21
  = (HTTPException 400 "Minimum age mismatch", demo_app21) /\
  demo_app21 = demo_app21 /\ 400 = 400 /\
  ("Minimum age mismatch" = "Invalid session ID" \/
   "Minimum age mismatch" = "Challenge mismatch" \/
   "Minimum age mismatch" = "Minimum age mismatch").
Proof.
  split; [vm_compute; reflexivity |].
  apply (rejected_request_changes_nothing demo_request 10 demo_app21 demo_app21
           400 "Minimum age mismatch").
  vm_compute; reflexivity.
Defined.

(** X18: when [/verify-zkproof] answers, the session it names is completed
    with the verdict and the instant, keeping its challenge, threshold and
    creation instant; every other session is as before; the challenge is
    spent; and the details of the answer repeat the verdict and the
    session's threshold. *)
Theorem answered_request_completes_session :
  forall (request : ZKProofRequest) (now : Z) (app app1 : App)
         (body : ZKProofResponse),
    verify_zkproof request now app = (Response body, app1) ->
    exists session,
      active_sessions app !! req_session_id request = Some session /\
      active_sessions app1 !! req_session_id request
      = Some (mkSession (sess_challenge session) (sess_minimum_age session)
                        (sess_created_at session) "completed"
                        (Some (is_valid body)) (Some now)) /\
      (forall other, other <> req_session_id request ->
                     active_sessions app1 !! other = active_sessions app !! other) /\
      active_challenges (zksnark_verifier app1) !! req_challenge request = None /\
      proof_verified (verification_details body) = is_valid body /\
      minimum_age_required (verification_details body) = sess_minimum_age session.
Proof.
  intros request now app app1 body Hrun.
  destruct (verify_zkproof_response _ _ _ _ _ Hrun) as (session & Hs & Hc & Hm).
  rewrite (verify_zkproof_runs _ _ _ _ Hs Hc Hm) in Hrun. cbv zeta in Hrun.
  injection Hrun as Hbody Happ. subst body app1.
  exists session. cbn [active_sessions zksnark_verifier is_valid
                       verification_details proof_verified minimum_age_required].
  repeat split; try reflexivity.
  - exact Hs.
  - apply lookup_insert_eq.
  - intros other Hne. apply lookup_insert_ne. congruence.
  - apply server_verify_proof_consumes.
Qed.

Lemma answered_request_completes_session_witness :
  exists body app1 session,
    verify_zkproof demo_garbled_request 10 demo_app1 = (Response body, app1) /\
    active_sessions demo_app1 !! "9a3e" = Some session /\
    active_sessions app1 !! "9a3e"
    = Some (mkSession (sess_challenge session) (sess_minimum_age session)
                      (sess_created_at session) "completed" (Some (is_valid body))
                      (Some 10)).
Proof.
  eexists. eexists.
  destruct (answered_request_completes_session demo_garbled_request 10 demo_app1
              _ _ ltac:(vm_compute; reflexivity))
    as (session & Hs & Hs1 & _).
  exists session. split; [vm_compute; reflexivity |].
  split; [exact Hs | exact Hs1].
Defined.

(** X19: once [/verify-zkproof] has answered for a session, the next
    request that names this session is not accepted, whatever proof,
    challenge and public inputs it brings; a failed attempt spends the
    session as well as a successful one. *)
Theorem answered_session_is_spent :
  forall (request next : ZKProofRequest) (now1 now2 : Z) (app app1 : App)
         (body : ZKProofResponse),
    verify_zkproof request now1 app = (Response body, app1) ->
    req_session_id next = req_session_id request ->
    accepted (verify_zkproof next now2 app1).1 = false.
Proof.
  intros request next now1 now2 app app1 body Hrun Hsid.
  destruct (verify_zkproof_response _ _ _ _ _ Hrun) as (session & Hs & Hc & Hm).
  rewrite (verify_zkproof_runs _ _ _ _ Hs Hc Hm) in Hrun. cbv zeta in Hrun.
  injection Hrun as _ Happ.
  destruct (verify_zkproof next now2 app1) as [[body2 | code detail] app2] eqn:Hnext;
    [| reflexivity].
  destruct (verify_zkproof_response _ _ _ _ _ Hnext) as (s2 & Hs2 & Hc2 & Hm2).
  rewrite (verify_zkproof_runs _ _ _ _ Hs2 Hc2 Hm2) in Hnext. cbv zeta in Hnext.
  injection Hnext as Hbody2 _. subst body2. cbn [fst accepted is_valid].
  rewrite server_verify_proof_inactive; [reflexivity |].
  subst app1. cbn [active_sessions zksnark_verifier] in *.
  rewrite Hsid, lookup_insert_eq in Hs2. injection Hs2 as <-.
  cbn [sess_challenge] in Hc2. rewrite <- Hc2, Hc.
  apply server_verify_proof_consumes.
Qed.

Lemma answered_session_is_spent_witness :
  req_session_id demo_request = req_session_id demo_garbled_request /\
  accepted (verify_zkproof demo_garbled_request 10 demo_app1).1 = false /\
  accepted (verify_zkproof demo_request 20
              (verify_zkproof demo_garbled_request 10 demo_app1).2).1 = false.
Proof.
  split; [reflexivity |]. split; [vm_compute; reflexivity |].
  apply (answered_session_is_spent demo_garbled_request demo_request 10 20
           demo_app1 (verify_zkproof demo_garbled_request 10 demo_app1).2
           (mkZKProofResponse false "Invalid proof ❌"
              (mkVerificationDetails "zk-SNARKs" false false 18
                 "Bilinear pairings on elliptic curves" "9a3e")));
    vm_compute; reflexivity.
Defined.

(** X20: sending an answered submission again overwrites what the session
    recorded: its result becomes [False] and its verification instant the
    instant of the replay, also when the first verdict was [True]. *)
Theorem replay_overwrites_recorded_result :
  forall (request : ZKProofRequest) (now1 now2 : Z) (app app1 : App)
         (body : ZKProofResponse),
    verify_zkproof request now1 app = (Response body, app1) ->
    (fun s => (sess_status s, sess_result s, sess_verified_at s))
      <$> (active_sessions (verify_zkproof request now2 app1).2
             !! req_session_id request)
    = Some ("completed", Some false, Some now2).
Proof.
  intros request now1 now2 app app1 body Hrun.
  destruct (verify_zkproof_response _ _ _ _ _ Hrun) as (session & Hs & Hc & Hm).
  rewrite (verify_zkproof_runs _ _ _ _ Hs Hc Hm) in Hrun. cbv zeta in Hrun.
  injection Hrun as _ Happ. subst app1.
  erewrite verify_zkproof_runs;
    [| cbn [active_sessions]; apply lookup_insert_eq | exact Hc | exact Hm].
  cbv zeta. cbn [snd active_sessions zksnark_verifier].
  rewrite lookup_insert_eq. cbn [fmap option_fmap option_map sess_status sess_result
                                  sess_verified_at].
  rewrite server_verify_proof_inactive by apply server_verify_proof_consumes.
  reflexivity.
Qed.

Lemma replay_overwrites_recorded_result_witness :
  sess_result
    <$> (active_sessions (verify_zkproof demo_request 10 demo_app1).2 !! "9a3e")
  = Some (Some true) /\
  (fun s => (sess_status s, sess_result s, sess_verified_at s))
    <$> (active_sessions
           (verify_zkproof demo_request 20
              (verify_zkproof demo_request 10 demo_app1).2).2 !! "9a3e")
  = Some ("completed", Some false, Some 20).
Proof.
  split; [vm_compute; reflexivity |].
  apply (replay_overwrites_recorded_result demo_request 10 20 demo_app1
           (verify_zkproof demo_request 10 demo_app1).2
           (mkZKProofResponse true "Age verification successful ✅"
              (mkVerificationDetails "zk-SNARKs" true false 18
                 "Bilinear pairings on elliptic curves" "9a3e"))).
  vm_compute; reflexivity.
Defined.

(** X21: [/verify-zkproof] neither creates nor removes a session, whatever
    its outcome, and [/request-challenge] adds the one session id it
    answers with and removes none. *)
Theorem routes_keep_sessions :
  forall (request : ZKProofRequest) (asked : ChallengeRequest) (now : Z)
         (app : App) (e : Entropy),
    dom (active_sessions (verify_zkproof request now app).2)
    = dom (active_sessions app) /\
    dom (active_sessions (request_challenge asked now app e).1.2)
    = {[secrets_tape e (S (secrets_pos e))]} ∪ dom (active_sessions app).
Proof.
  intros request asked now app e. split.
  - unfold verify_zkproof.
    destruct (active_sessions app !! req_session_id request) as [session |] eqn:Hs;
      [| reflexivity].
    case_bool_decide; [reflexivity |].
    destruct (_ || _); [reflexivity |].
    destruct (server_verify_proof _ _ _) as [is_valid verifier].
    cbn [snd active_sessions]. rewrite dom_insert_L.
    apply elem_of_dom_2 in Hs.
    apply subseteq_union_1_L, singleton_subseteq_l. exact Hs.
  - unfold request_challenge, generate_challenge. rewrite !rand_bind_unfold.
    cbn [fst snd mret rand_ret token_hex active_sessions secrets_tape secrets_pos].
    apply dom_insert_L.
Qed.

(** X22: [/cleanup-sessions] empties the sessions but leaves the verifier's
    challenges active; since every submission needs a session, each one is
    then turned away as an invalid session, and none of the challenges left
    behind can be used or spent. *)
Theorem cleanup_strands_challenges :
  forall (app : App) (request : ZKProofRequest) (now : Z),
    let cleared := (cleanup_sessions app).2 in
    total_sessions (get_active_sessions cleared) = 0 /\
    active_challenges (zksnark_verifier cleared)
    = active_challenges (zksnark_verifier app) /\
    verify_zkproof request now cleared
    = (HTTPException 400 "Invalid session ID", cleared).
Proof.
  intros app request now cleared. subst cleared.
  unfold cleanup_sessions, get_active_sessions.
  cbn [snd active_sessions zksnark_verifier total_sessions].
  rewrite map_size_empty.
  split; [reflexivity |]. split; [reflexivity |].
  apply verify_zkproof_unknown_session. apply lookup_empty.
Qed.

(** X23: after an answered submission, [/active-sessions] still counts the
    same number of sessions, and lists the session as completed with the
    threshold and creation instant it had. *)
Theorem listing_after_answer :
  forall (request : ZKProofRequest) (now : Z) (app app1 : App)
         (body : ZKProofResponse),
    verify_zkproof request now app = (Response body, app1) ->
    total_sessions (get_active_sessions app1)
    = total_sessions (get_active_sessions app) /\
    exists session,
      active_sessions app !! req_session_id request = Some session /\
      sessions (get_active_sessions app1) !! req_session_id request
      = Some (mkSessionView (sess_minimum_age session) "completed"
                            (sess_created_at session)).
Proof.
  intros request now app app1 body Hrun.
  destruct (verify_zkproof_response _ _ _ _ _ Hrun) as (session & Hs & Hc & Hm).
  rewrite (verify_zkproof_runs _ _ _ _ Hs Hc Hm) in Hrun. cbv zeta in Hrun.
  injection Hrun as _ Happ. subst app1.
  unfold get_active_sessions. cbn [total_sessions sessions active_sessions].
  split.
  - f_equal. apply map_size_insert_Some. exists session. exact Hs.
  - exists session. split; [exact Hs |].
    rewrite lookup_fmap, lookup_insert_eq. reflexivity.
Qed.

Lemma listing_after_answer_witness :
  total_sessions (get_active_sessions (verify_zkproof demo_request 10 demo_app1).2)
  = total_sessions (get_active_sessions demo_app1) /\
  exists session,
    active_sessions demo_app1 !! req_session_id demo_request = Some session /\
    sessions (get_active_sessions (verify_zkproof demo_request 10 demo_app1).2)
      !! req_session_id demo_request
    = Some (mkSessionView (sess_minimum_age session) "completed"
                          (sess_created_at session)).
Proof.
  apply (listing_after_answer demo_request 10 demo_app1
           (verify_zkproof demo_request 10 demo_app1).2
           (mkZKProofResponse true "Age verification successful ✅"
              (mkVerificationDetails "zk-SNARKs" true false 18
                 "Bilinear pairings on elliptic curves" "9a3e"))).
  vm_compute; reflexivity.
Defined.

(** X24: [/demo-client-proof] succeeds exactly when the age reaches the
    threshold, for any challenge text, issued or not, and then hands out
    the bundle of [client_generate_proof]; otherwise it reports failure and
    carries no bundle.  It never raises. *)
Theorem demo_client_proof_outcome :
  forall (request : ClientProofRequest) (app : App) (e : Entropy),
    exists result,
      (demo_client_proof request app e).1 = Response result /\
      success result = (cp_minimum_age request <=? cp_actual_age request) /\
      cp_proof_data result
      = (client_generate_proof (zksnark_verifier app) (cp_actual_age request)
           (cp_minimum_age request) (cp_challenge request) e).1 /\
      (if success result then is_Some (cp_proof_data result)
       else cp_proof_data result = None).
Proof.
  intros request app e. unfold demo_client_proof. rewrite rand_bind_unfold.
  destruct (client_generate_proof_cases (zksnark_verifier app)
              (cp_actual_age request) (cp_minimum_age request)
              (cp_challenge request) e)
    as [[Hlt ->] | [Hge (ka & kb & kc & token & e' & ->)]]; cbn [fst snd].
  - eexists. split; [reflexivity |]. cbn [success cp_proof_data].
    repeat split. symmetry. apply Z.leb_gt. exact Hlt.
  - eexists. split; [reflexivity |]. cbn [success cp_proof_data].
    repeat split; [symmetry; apply Z.leb_le; exact Hge | eexists; reflexivity].
Qed.

(** Points that come out of [multiply] on G1 make any bundle fail. *)
Lemma bundle_of_curve_points_fails (server : ZKSNARKAgeVerifier)
    (ka : Z) (pb pc : pyval) (public_inputs : list Z) (label : string)
    (stamp : Timestamp) (challenge : string) :
  (server_verify_proof server
     (mkProofData (<["a" := py_of_G1 (multiply G1 ka)]>
                   (<["b" := pb]> (<["c" := pc]> ∅)))
                  public_inputs label stamp) challenge).1 = false.
Proof.
  destruct (active_challenges server !! challenge) as [flag |] eqn:Hc.
  - erewrite server_verify_proof_active; [| exact Hc | cbn [pd_proof] ..].
    + cbn [fst]. apply verify_proof_needs_valid_a. cbn [a].
      rewrite tuple_if_list_point. apply g1_point_of_curve_invalid.
    + by simplify_map_eq.
    + by simplify_map_eq.
    + by simplify_map_eq.
  - rewrite server_verify_proof_inactive by exact Hc. reflexivity.
Qed.

(** X25: whatever the random draws, the demonstration of the module ends
    the same way: in its first scenario (age 25, threshold 18) the client
    makes a proof and the server's verdict on it is [False], so that it
    prints INVALID; in its second (age 16) the client is refused. *)
Theorem demo_outcome :
  forall e : Entropy,
    (demo_zksnark_age_verification e).1 = (Some false, true).
Proof.
  intros e. unfold demo_zksnark_age_verification.
  repeat (rewrite rand_bind_unfold; cbv beta zeta).
  match goal with
  | |- context [client_generate_proof ?v 25 18 ?ch ?e1] =>
      destruct (client_generate_proof_cases v 25 18 ch e1)
        as [[Hlt _] | [_ (ka & kb & kc & token & e' & Heq)]];
      [lia | rewrite Heq]
  end.
  cbn [fst snd].
  match goal with
  | |- context [client_generate_proof ?v 16 18 ?ch ?e1] =>
      destruct (client_generate_proof_cases v 16 18 ch e1)
        as [[_ Heq2] | [Hge _]];
      [rewrite Heq2 | lia]
  end.
  cbn [fst snd mret rand_ret].
  rewrite bundle_of_curve_points_fails. reflexivity.
Qed.

(** X26: [server_verify_proof] answers [True] only under a challenge that
    was active, and only for public inputs [[m, 1]] with [m >= 0] and a
    bundle that holds all three points. *)
Theorem server_acceptance_needs :
  forall (self : ZKSNARKAgeVerifier) (proof_data : ProofData) (challenge : string),
    (server_verify_proof self proof_data challenge).1 = true ->
    is_Some (active_challenges self !! challenge) /\
    (exists m, pd_public_inputs proof_data = [m; 1] /\ 0 <= m) /\
    is_Some (pd_proof proof_data !! "a") /\
    is_Some (pd_proof proof_data !! "b") /\
    is_Some (pd_proof proof_data !! "c").
Proof.
  intros self proof_data challenge. unfold server_verify_proof, py_getitem.
  destruct (active_challenges self !! challenge) as [flag |]; [| discriminate].
  destruct (pd_proof proof_data !! "a") as [pa |]; [| discriminate].
  destruct (pd_proof proof_data !! "b") as [pb |]; [| discriminate].
  destruct (pd_proof proof_data !! "c") as [pc |]; [| discriminate].
  cbn [fst mbind py_bind try_except]. intros Hv.
  apply verify_proof_structural in Hv. destruct Hv as (m & Hpi & Hm & _).
  repeat split; eauto.
Qed.

Lemma server_acceptance_needs_witness :
  (server_verify_proof demo_two_challenges
     (mkProofData demo_points [18; 1] "5f1c" (Token "e2b4")) "c07d").1 = true /\
  is_Some (active_challenges demo_two_challenges !! "c07d").
Proof.
  split; [vm_compute; reflexivity |].
  apply (server_acceptance_needs demo_two_challenges
           (mkProofData demo_points [18; 1] "5f1c" (Token "e2b4")) "c07d").
  vm_compute; reflexivity.
Defined.

(** X27: [/verify-zkproof] accepts only a submission whose session exists
    and holds the submitted challenge, whose challenge is still active in
    the verifier, and whose public inputs are exactly the session's
    threshold followed by 1, the threshold not being negative. *)
Theorem route_acceptance_needs :
  forall (request : ZKProofRequest) (now : Z) (app : App),
    accepted (verify_zkproof request now app).1 = true ->
    exists session,
      active_sessions app !! req_session_id request = Some session /\
      sess_challenge session = req_challenge request /\
      req_public_inputs request = [sess_minimum_age session; 1] /\
      0 <= sess_minimum_age session /\
      is_Some (active_challenges (zksnark_verifier app) !! req_challenge request).
Proof.
  intros request now app Hacc.
  destruct (verify_zkproof request now app) as [[body | code detail] app1] eqn:Hrun;
    [| discriminate Hacc].
  destruct (verify_zkproof_response _ _ _ _ _ Hrun) as (session & Hs & Hc & Hm).
  rewrite (verify_zkproof_runs _ _ _ _ Hs Hc Hm) in Hrun. cbv zeta in Hrun.
  injection Hrun as Hbody _. subst body. cbn [fst accepted is_valid] in Hacc.
  exists session. split; [exact Hs |]. split; [exact Hc |].
  revert Hacc. unfold server_verify_proof, py_getitem.
  destruct (active_challenges (zksnark_verifier app) !! req_challenge request)
    as [flag |]; [| discriminate].
  cbn [pd_proof pd_public_inputs].
  destruct (req_proof request !! "a") as [pa |]; [| discriminate].
  destruct (req_proof request !! "b") as [pb |]; [| discriminate].
  destruct (req_proof request !! "c") as [pc |]; [| discriminate].
  cbn [fst mbind py_bind try_except]. intros Hv.
  apply verify_proof_structural in Hv. destruct Hv as (m & Hpi & Hm0 & _).
  rewrite Hpi in Hm. injection Hm as ->.
  repeat split; eauto.
Qed.

Lemma route_acceptance_needs_witness :
  accepted (verify_zkproof demo_request 10 demo_app1).1 = true /\
  exists session,
    active_sessions demo_app1 !! req_session_id demo_request = Some session /\
    sess_challenge session = req_challenge demo_request /\
    req_public_inputs demo_request = [sess_minimum_age session; 1] /\
    0 <= sess_minimum_age session /\
    is_Some (active_challenges (zksnark_verifier demo_app1)
               !! req_challenge demo_request).
Proof.
  split; [vm_compute; reflexivity |].
  apply (route_acceptance_needs demo_request 10 demo_app1).
  vm_compute; reflexivity.
Defined.
